(** * Goal tracker: the [GoalTracker] data/logic core of [project.py]

    A shallow embedding of the class [GoalTracker] (load/normalise, save,
    add, delete, complete, log progress, log missed day, weekly progress)
    and the properties of its store that the specification states.

    Python values are modelled by the JSON values [json.load] produces;
    dictionaries are association lists in insertion order; a method is a
    computation in a state-and-exception monad over the tracker's document,
    the backing file and the clock. *)

From Stdlib Require Import ZArith Floats Ascii String.
From stdpp Require Import list strings.

Set Warnings "-register-all".

Open Scope Z_scope.

(* ===================================================================== *)
(** ** Python values *)
(* ===================================================================== *)

(** What [json.load] returns.  A JSON number is kept as the binary64 value
    it denotes ([float]); Python's [int] results ([0], the start value of
    [sum]) are modelled by the float of the same value, with which they
    compare equal and add identically. *)
Inductive json : Type :=
  | JNull
  | JBool (b : bool)
  | JNum (x : float)
  | JStr (s : string)
  | JList (l : list json)
  | JDict (d : list (string * json)).

Inductive exn : Type :=
  | KeyError (k : string)
  | TypeError
  | AttributeError
  | ValueError
  | UnicodeDecodeError
  | RecursionError
  | PermissionError.

Inductive result (A : Type) : Type :=
  | Ok (a : A)
  | Raise (e : exn).
Arguments Ok {A} a.
Arguments Raise {A} e.

Definition rbind {A B} (r : result A) (k : A -> result B) : result B :=
  match r with
  | Ok a => k a
  | Raise e => Raise e
  end.

Declare Scope res_scope.
Delimit Scope res_scope with res.
Notation "'do' x <- c ; k" := (rbind c (fun x => k))
  (at level 10, x name, c at level 100, k at level 200) : res_scope.

(** *** Dictionaries *)

(** [d.get(k)]: the value of the first entry with key [k]. *)
Fixpoint dict_get (k : string) (d : list (string * json)) : option json :=
  match d with
  | [] => None
  | (k', v) :: d' => if String.eqb k k' then Some v else dict_get k d'
  end.

(** [d[k] = v]: an existing key keeps its position, a new key goes last. *)
Fixpoint dict_set (k : string) (v : json) (d : list (string * json))
  : list (string * json) :=
  match d with
  | [] => [(k, v)]
  | (k', v') :: d' =>
      if String.eqb k k' then (k', v) :: d' else (k', v') :: dict_set k v d'
  end.

(** [del d[k]]: no entry with key [k] is left. *)
Fixpoint dict_del (k : string) (d : list (string * json))
  : list (string * json) :=
  match d with
  | [] => []
  | (k', v') :: d' =>
      if String.eqb k k' then dict_del k d' else (k', v') :: dict_del k d'
  end.

(** [d.setdefault(k, v)] (the returned value is never used by the code). *)
Definition dict_setdefault (k : string) (v : json) (d : list (string * json))
  : list (string * json) :=
  match dict_get k d with
  | Some _ => d
  | None => d ++ [(k, v)]
  end.

(** [k in d] *)
Definition dict_mem (k : string) (d : list (string * json)) : bool :=
  match dict_get k d with Some _ => true | None => false end.

(** *** Operators *)

(** [v[k]] for a string key [k]. *)
Definition getitem (v : json) (k : string) : result json :=
  match v with
  | JDict d => match dict_get k d with
               | Some x => Ok x
               | None => Raise (KeyError k)
               end
  | _ => Raise TypeError
  end.

(** [v[k] = x] for a string key [k]. *)
Definition setitem (v : json) (k : string) (x : json) : result json :=
  match v with
  | JDict d => Ok (JDict (dict_set k x d))
  | _ => Raise TypeError
  end.

(** [v.setdefault(k, x)]: only dictionaries have the method. *)
Definition setdefault (v : json) (k : string) (x : json) : result json :=
  match v with
  | JDict d => Ok (JDict (dict_setdefault k x d))
  | _ => Raise AttributeError
  end.

(** [v.append(x)]: only lists have the method. *)
Definition py_append (v x : json) : result json :=
  match v with
  | JList l => Ok (JList (l ++ [x]))
  | _ => Raise AttributeError
  end.

(** [for x in v]: the elements of a list, the keys of a dictionary, the
    characters of a string. *)
Definition py_iter (v : json) : result (list json) :=
  match v with
  | JList l => Ok l
  | JDict d => Ok (map (fun kv => JStr (fst kv)) d)
  | JStr s =>
      Ok (map (fun c => JStr (String c EmptyString)) (list_ascii_of_string s))
  | _ => Raise TypeError
  end.

Definition float_of_bool (b : bool) : float :=
  if b then 1%float else 0%float.

(** The operand of [+] and [>=] next to a number: numbers and booleans. *)
Definition as_number (v : json) : result float :=
  match v with
  | JNum x => Ok x
  | JBool b => Ok (float_of_bool b)
  | _ => Raise TypeError
  end.

(** Python's [==] on two distinct objects: numbers by IEEE equality,
    booleans as the numbers 0 and 1, lists element-wise, dictionaries by
    keys and values whatever the order of the keys. *)
Fixpoint py_eq (a b : json) {struct a} : bool :=
  match a, b with
  | JNull, JNull => true
  | JBool x, JBool y => Bool.eqb x y
  | JBool x, JNum y => PrimFloat.eqb (float_of_bool x) y
  | JNum x, JBool y => PrimFloat.eqb x (float_of_bool y)
  | JNum x, JNum y => PrimFloat.eqb x y
  | JStr x, JStr y => String.eqb x y
  | JList xs, JList ys =>
      (fix all2 (xs ys : list json) {struct xs} : bool :=
         match xs, ys with
         | [], [] => true
         | x :: xs', y :: ys' => py_eq x y && all2 xs' ys'
         | _, _ => false
         end) xs ys
  | JDict xs, JDict ys =>
      Nat.eqb (length xs) (length ys) &&
      (fix sub (xs : list (string * json)) {struct xs} : bool :=
         match xs with
         | [] => true
         | (k, v) :: xs' =>
             match dict_get k ys with
             | Some v' => py_eq v v'
             | None => false
             end && sub xs'
         end) xs
  | _, _ => false
  end.

(** [x in v] for a list [v]. *)
Definition list_mem (x : json) (l : list json) : bool :=
  existsb (fun y => py_eq y x) l.

(** [a >= v] for a number [a]. *)
Definition py_ge (a : float) (v : json) : result bool :=
  (do n <- as_number v; Ok (PrimFloat.leb n a))%res.

(* ===================================================================== *)
(** ** Calendar dates ([datetime]) *)
(* ===================================================================== *)

Record date : Type := mkDate { year : Z; month : Z; day : Z }.

Definition is_leap (y : Z) : bool :=
  (y mod 4 =? 0) && (negb (y mod 100 =? 0) || (y mod 400 =? 0)).

Definition days_before_year (y : Z) : Z :=
  let p := y - 1 in p * 365 + p / 4 - p / 100 + p / 400.

Definition days_in_month (y m : Z) : Z :=
  if m =? 2 then (if is_leap y then 29 else 28)
  else if (m =? 4) || (m =? 6) || (m =? 9) || (m =? 11) then 30
  else 31.

Definition days_before_month (y m : Z) : Z :=
  nth (Z.to_nat m) [0; 0; 31; 59; 90; 120; 151; 181; 212; 243; 273; 304; 334] 0
  + (if (2 <? m) && is_leap y then 1 else 0).

(** Proleptic Gregorian ordinal: 1 January of year 1 is day 1. *)
Definition ymd2ord (y m d : Z) : Z :=
  days_before_year y + days_before_month y m + d.

(** Ordinal of the Monday that starts ISO week 1 of year [y]: the week
    holding the year's first Thursday. *)
Definition isoweek1monday (y : Z) : Z :=
  let firstday := ymd2ord y 1 1 in
  let firstweekday := (firstday + 6) mod 7 in
  let week1monday := firstday - firstweekday in
  if 3 <? firstweekday then week1monday + 7 else week1monday.

(** [d.isocalendar()]: ISO year, ISO week, ISO weekday. *)
Definition isocalendar (d : date) : Z * Z * Z :=
  let y := year d in
  let today := ymd2ord y (month d) (day d) in
  let week := (today - isoweek1monday y) / 7 in
  let wday := (today - isoweek1monday y) mod 7 in
  if week <? 0 then
    let w1 := isoweek1monday (y - 1) in
    (y - 1, (today - w1) / 7 + 1, (today - w1) mod 7 + 1)
  else if (52 <=? week) && (isoweek1monday (y + 1) <=? today) then
    (y + 1, 1, wday + 1)
  else (y, week + 1, wday + 1).

(** [d.isocalendar()[1]] *)
Definition iso_week (d : date) : Z := snd (fst (isocalendar d)).

(** The ISO week a date lies in: ISO year and week number together. *)
Definition iso_year_week (d : date) : Z * Z := fst (isocalendar d).

Definition digit_char (n : Z) : ascii :=
  ascii_of_nat (48 + Z.to_nat (n mod 10)).

Definition pad2 (n : Z) : string :=
  String (digit_char (n / 10)) (String (digit_char n) EmptyString).

Definition pad4 (n : Z) : string :=
  String (digit_char (n / 1000)) (String (digit_char (n / 100)) (pad2 n)).

(** [d.strftime("%Y-%m-%d")] for a year of four digits. *)
Definition strftime (d : date) : string :=
  pad4 (year d) +:+ "-" +:+ pad2 (month d) +:+ "-" +:+ pad2 (day d).

Definition digit_val (c : ascii) : option Z :=
  let n := Z.of_nat (nat_of_ascii c) in
  if (48 <=? n) && (n <=? 57) then Some (n - 48) else None.

(** The month directive [1[0-2]|0[1-9]|[1-9]] followed by the literal
    [-]: the month and the text after the dash. *)
Definition parse_month (s : list ascii) : option (Z * list ascii) :=
  match s with
  | c1 :: "-"%char :: rest =>
      match digit_val c1 with
      | Some a => if 1 <=? a then Some (a, rest) else None
      | None => None
      end
  | c1 :: c2 :: "-"%char :: rest =>
      match digit_val c1, digit_val c2 with
      | Some 1, Some b => if b <=? 2 then Some (10 + b, rest) else None
      | Some 0, Some b => if 1 <=? b then Some (b, rest) else None
      | _, _ => None
      end
  | _ => None
  end.

(** The day directive [3[01]|[12]\d|0[1-9]|[1-9]| [1-9]]: the first
    alternative that matches wins, and nothing may remain after it. *)
Definition parse_day (s : list ascii) : option Z :=
  let two :=
    match s with
    | c1 :: c2 :: rest =>
        match digit_val c1, digit_val c2 with
        | Some 3, Some b => if b <=? 1 then Some (30 + b, rest) else None
        | Some 1, Some b => Some (10 + b, rest)
        | Some 2, Some b => Some (20 + b, rest)
        | Some 0, Some b => if 1 <=? b then Some (b, rest) else None
        | _, _ => None
        end
    | _ => None
    end in
  let one :=
    match s with
    | c1 :: rest =>
        match digit_val c1 with
        | Some a => if 1 <=? a then Some (a, rest) else None
        | None =>
            match c1, rest with
            | " "%char, c2 :: rest' =>
                match digit_val c2 with
                | Some b => if 1 <=? b then Some (b, rest') else None
                | None => None
                end
            | _, _ => None
            end
        end
    | [] => None
    end in
  match (match two with Some r => Some r | None => one end) with
  | Some (d, []) => Some d
  | _ => None
  end.

(** [datetime.strptime(s, "%Y-%m-%d")] on a string: four digits, a dash,
    the month, a dash, the day, and a date that exists (years 1 to 9999).
    The digits are the ASCII digits, the ones [strftime] writes. *)
Definition strptime_str (s : string) : result date :=
  match list_ascii_of_string s with
  | y1 :: y2 :: y3 :: y4 :: "-"%char :: rest =>
      match digit_val y1, digit_val y2, digit_val y3, digit_val y4 with
      | Some a, Some b, Some c, Some d =>
          let y := a * 1000 + b * 100 + c * 10 + d in
          match parse_month rest with
          | Some (m, rest') =>
              match parse_day rest' with
              | Some dd =>
                  if (1 <=? y) && (dd <=? days_in_month y m)
                  then Ok (mkDate y m dd)
                  else Raise ValueError
              | None => Raise ValueError
              end
          | None => Raise ValueError
          end
      | _, _, _, _ => Raise ValueError
      end
  | _ => Raise ValueError
  end.

(** [datetime.strptime(v, "%Y-%m-%d")]: the argument must be a string. *)
Definition strptime (v : json) : result date :=
  match v with
  | JStr s => strptime_str s
  | _ => Raise TypeError
  end.

(* ===================================================================== *)
(** ** The tracker *)
(* ===================================================================== *)

(** [self.data]: the document's two collections.  No method reads another
    key of the document, and none is kept here. *)
Record store : Type := mkStore {
  active_goals : list json;
  completed_goals : list json
}.

(** The backing file as [open] and [json.load] see it: absent
    ([FileNotFoundError]); text that is not JSON ([json.JSONDecodeError]);
    a file whose reading raises an exception [e] of another class
    ([UnicodeDecodeError] on bytes that are not UTF-8, [RecursionError] on
    nesting too deep, [ValueError] on a number of too many digits,
    [PermissionError]); or the text of a JSON value. *)
Inductive file_state : Type :=
  | NoFile
  | Garbage
  | Unreadable (e : exn)
  | Doc (j : json).

(** A [GoalTracker] object with its surroundings: the document in memory,
    the file at [file_path], the number of times the file was written, and
    the day the system clock shows. *)
Record tracker : Type := mkTracker {
  data : store;
  file : file_state;
  writes : nat;
  clock : date
}.

(** A method: it returns or raises, and leaves a tracker behind. *)
Definition M (A : Type) : Type := tracker -> result A * tracker.

Definition mret {A} (a : A) : M A := fun t => (Ok a, t).

Definition mbind {A B} (c : M A) (k : A -> M B) : M B :=
  fun t =>
    match c t with
    | (Ok a, t') => k a t'
    | (Raise e, t') => (Raise e, t')
    end.

Definition lift {A} (r : result A) : M A := fun t => (r, t).

Definition gets {A} (f : tracker -> A) : M A := fun t => (Ok (f t), t).

Definition set_active (l : list json) : M unit :=
  fun t =>
    (Ok tt, mkTracker (mkStore l (completed_goals (data t)))
                      (file t) (writes t) (clock t)).

Definition set_completed (l : list json) : M unit :=
  fun t =>
    (Ok tt, mkTracker (mkStore (active_goals (data t)) l)
                      (file t) (writes t) (clock t)).

Declare Scope trk_scope.
Delimit Scope trk_scope with trk.
Notation "'do' x <- c ; k" := (mbind c (fun x => k))
  (at level 10, x name, c at level 100, k at level 200) : trk_scope.

(** [datetime.now().strftime("%Y-%m-%d")] *)
Definition today_str : M string := gets (fun t => strftime (clock t)).

Definition doc_of_store (st : store) : json :=
  JDict [("active_goals", JList (active_goals st));
         ("completed_goals", JList (completed_goals st))].

Definition empty_doc : json :=
  JDict [("active_goals", JList []); ("completed_goals", JList [])].

(** *** [load_data] *)

(** [k in v] for a string [k]. *)
Definition py_contains (k : string) (v : json) : result bool :=
  match v with
  | JDict d => Ok (dict_mem k d)
  | JList l => Ok (list_mem (JStr k) l)
  | JStr s => Ok (match index 0 k s with Some _ => true | None => false end)
  | _ => Raise TypeError
  end.

(** [v.pop(k)] for a string [k]: the value and what is left of [v]. *)
Definition py_pop (v : json) (k : string) : result (json * json) :=
  match v with
  | JDict d => match dict_get k d with
               | Some x => Ok (x, JDict (dict_del k d))
               | None => Raise (KeyError k)
               end
  | JList _ => Raise TypeError
  | _ => Raise AttributeError
  end.

(** Lines 19-20: the legacy key [goals] becomes [active_goals]. *)
Definition migrate_legacy (doc : json) : result json :=
  (do has_goals <- py_contains "goals" doc;
   do legacy <- (if has_goals
                 then do has_active <- py_contains "active_goals" doc;
                      Ok (negb has_active)
                 else Ok false);
   if legacy
   then do popped <- py_pop doc "goals";
        setitem (snd popped) "active_goals" (fst popped)
   else Ok doc)%res.

(** Lines 26-28, the body of the loop over the active goals. *)
Definition normalise_goal (goal : json) : result json :=
  (do g1 <- setdefault goal "unit" (JStr "units");
   do g2 <- setdefault g1 "missed_days" (JList []);
   setdefault g2 "daily_logs" (JList []))%res.

Fixpoint normalise_goals (goals : list json) : result (list json) :=
  match goals with
  | [] => Ok []
  | goal :: rest =>
      (do g <- normalise_goal goal;
       do rest' <- normalise_goals rest;
       Ok (g :: rest'))%res
  end.

(** Lines 19-29, on the value [json.load] returned.  The goals are
    dictionaries changed in place, so a list of goals holds the changed
    goals afterwards. *)
Definition normalise_doc (doc : json) : result json :=
  (do d1 <- migrate_legacy doc;
   do d2 <- setdefault d1 "active_goals" (JList []);
   do d3 <- setdefault d2 "completed_goals" (JList []);
   do ags <- getitem d3 "active_goals";
   do goals <- py_iter ags;
   do goals' <- normalise_goals goals;
   match ags with
   | JList _ => setitem d3 "active_goals" (JList goals')
   | _ => Ok d3
   end)%res.

(** [load_data] on a file: the two exceptions of the [except] clause give
    the empty document, any other exception leaves the method. *)
Definition load_file (f : file_state) : result json :=
  match f with
  | NoFile => Ok empty_doc
  | Garbage => Ok empty_doc
  | Unreadable e => Raise e
  | Doc doc => normalise_doc doc
  end.

Definition load_data : M json := fun t => (load_file (file t), t).

(** The two collections of a document whose [active_goals] and
    [completed_goals] are lists. *)
Definition store_of_doc (doc : json) : option store :=
  match doc with
  | JDict d =>
      match dict_get "active_goals" d, dict_get "completed_goals" d with
      | Some (JList a), Some (JList c) => Some (mkStore a c)
      | _, _ => None
      end
  | _ => None
  end.

(** [GoalTracker(file_path)] on the day [today]: [__init__] loads the file.
    There is no tracker when [load_data] raises, and none is modelled on a
    document whose collections are not lists. *)
Definition GoalTracker (f : file_state) (today : date) : option tracker :=
  match load_file f with
  | Ok doc =>
      match store_of_doc doc with
      | Some st => Some (mkTracker st f 0%nat today)
      | None => None
      end
  | Raise _ => None
  end.

(** *** [save_data] *)

(** The file is overwritten with the whole document; [json.load] reads
    back what [json.dump] wrote.  The write is taken to succeed: a failure
    of [open] or [json.dump] (a directory that is gone, a full disk) is
    left out, so what is shown of a method is shown of the runs in which
    the file can be written. *)
Definition save_data : M unit :=
  fun t =>
    (Ok tt, mkTracker (data t) (Doc (doc_of_store (data t)))
                      (S (writes t)) (clock t)).

(** *** [add_goal] *)

(** The targets arrive as floats, on which [float(...)] is the identity. *)
Definition add_goal (name : string) (total_target weekly_target : float)
    (unit : string) : M Datatypes.unit :=
  (do ags <- gets (fun t => active_goals (data t));
   do _ <- set_active
     (ags ++ [JDict [("name", JStr name);
                     ("total_target", JNum total_target);
                     ("weekly_target", JNum weekly_target);
                     ("unit", JStr unit);
                     ("daily_logs", JList [])]]);
   save_data)%trk.

(** *** [delete_goal] *)

(** [[g for g in goals if g["name"] != goal_name]] *)
Fixpoint keep_others (goal_name : string) (goals : list json)
  : result (list json) :=
  match goals with
  | [] => Ok []
  | g :: rest =>
      (do n <- getitem g "name";
       do rest' <- keep_others goal_name rest;
       Ok (if negb (py_eq n (JStr goal_name)) then g :: rest' else rest'))%res
  end.

Definition delete_goal (goal_name : string) : M unit :=
  (do ags <- gets (fun t => active_goals (data t));
   do kept <- lift (keep_others goal_name ags);
   do _ <- set_active kept;
   save_data)%trk.

(** *** Goals as objects *)

(** The loop [for goal in self.data["active_goals"]: if goal["name"] ==
    goal_name: ...] up to its first hit: the position of the goal in the
    list, which stands for the object, and the goal. *)
Fixpoint find_goal (goal_name : string) (goals : list json)
  : result (option (nat * json)) :=
  match goals with
  | [] => Ok None
  | g :: rest =>
      (do n <- getitem g "name";
       if py_eq n (JStr goal_name) then Ok (Some (0%nat, g))
       else do r <- find_goal goal_name rest;
            Ok (match r with
                | Some (i, g') => Some (S i, g')
                | None => None
                end))%res
  end.

(** A change made to the goal object at position [i] shows in the list. *)
Definition set_goal (i : nat) (goal : json) : M unit :=
  (do ags <- gets (fun t => active_goals (data t));
   set_active (<[i := goal]> ags))%trk.

(** [l.remove(x)] where [x] is the object at position [i] of [l]: the
    first element that is [x] or equals [x] goes. *)
Fixpoint py_remove (i : nat) (x : json) (l : list json) {struct l}
  : result (list json) :=
  match l with
  | [] => Raise ValueError
  | e :: l' =>
      match i with
      | O => Ok l'
      | S i' =>
          if py_eq e x then Ok l'
          else (do r <- py_remove i' x l'; Ok (e :: r))%res
      end
  end.

(** *** [complete_goal] *)

Definition complete_goal (i : nat) (goal : json) : M unit :=
  (do today <- today_str;
   do goal' <- lift (setitem goal "completion_date" (JStr today));
   do _ <- set_goal i goal';
   do cgs <- gets (fun t => completed_goals (data t));
   do _ <- set_completed (cgs ++ [goal']);
   do ags <- gets (fun t => active_goals (data t));
   do ags' <- lift (py_remove i goal' ags);
   do _ <- set_active ags';
   save_data)%trk.

(** *** [log_progress] *)

(** [sum(log["progress"] for log in logs)]: from [0], adding from the
    left, as CPython up to 3.11 does (from 3.12 [sum] compensates the
    rounding of floats, which can change the last bits of a sum of three
    or more). *)
Fixpoint sum_progress_from (acc : float) (logs : list json) : result float :=
  match logs with
  | [] => Ok acc
  | log :: rest =>
      (do p <- getitem log "progress";
       do n <- as_number p;
       sum_progress_from (acc + n)%float rest)%res
  end.

Definition total_progress (goal : json) : result float :=
  (do logs <- getitem goal "daily_logs";
   do entries <- py_iter logs;
   sum_progress_from 0%float entries)%res.

(** [goal[key].append(entry)]: the list under [key] grows in place. *)
Definition append_to (goal : json) (key : string) (entry : json)
  : result json :=
  (do l <- getitem goal key;
   do l' <- py_append l entry;
   setitem goal key l')%res.

(** The amount arrives as a float, on which [float(...)] is the
    identity. *)
Definition log_progress (goal_name : string) (progress : float) : M bool :=
  (do today <- today_str;
   do ags <- gets (fun t => active_goals (data t));
   do hit <- lift (find_goal goal_name ags);
   match hit with
   | Some (i, goal) =>
       do goal' <- lift (append_to goal "daily_logs"
                           (JDict [("date", JStr today);
                                   ("progress", JNum progress)]));
       do _ <- set_goal i goal';
       do total <- lift (total_progress goal');
       do target <- lift (getitem goal' "total_target");
       do reached <- lift (py_ge total target);
       do _ <- (if reached : bool then complete_goal i goal' else mret tt);
       do _ <- save_data;
       mret true
   | None => mret false
   end)%trk.

(** *** [log_missed_day] *)

Definition log_missed_day (goal_name reason : string) : M bool :=
  (do today <- today_str;
   do ags <- gets (fun t => active_goals (data t));
   do hit <- lift (find_goal goal_name ags);
   match hit with
   | Some (i, goal) =>
       do goal' <- lift (append_to goal "missed_days"
                           (JDict [("date", JStr today);
                                   ("reason", JStr reason)]));
       do _ <- set_goal i goal';
       do _ <- save_data;
       mret true
   | None => mret false
   end)%trk.

(** *** [get_weekly_progress] *)

(** [sum(log["progress"] for log in logs if
    datetime.strptime(log["date"], "%Y-%m-%d").isocalendar()[1] ==
    current_week)] *)
Fixpoint weekly_sum_from (current_week : Z) (acc : float) (logs : list json)
  : result float :=
  match logs with
  | [] => Ok acc
  | log :: rest =>
      (do dv <- getitem log "date";
       do d <- strptime dv;
       if iso_week d =? current_week
       then do p <- getitem log "progress";
            do n <- as_number p;
            weekly_sum_from current_week (acc + n)%float rest
       else weekly_sum_from current_week acc rest)%res
  end.

Definition get_weekly_progress (goal_name : string) : M float :=
  (do current_week <- gets (fun t => iso_week (clock t));
   do ags <- gets (fun t => active_goals (data t));
   do hit <- lift (find_goal goal_name ags);
   match hit with
   | Some (_, goal) =>
       lift (do logs <- getitem goal "daily_logs";
             do entries <- py_iter logs;
             weekly_sum_from current_week 0%float entries)%res
   | None => mret 0%float
   end)%trk.

(* ===================================================================== *)
(** ** Vocabulary of the specification *)
(* ===================================================================== *)

(** The goal is a record named [n]. *)
Definition named (n : string) (g : json) : Prop :=
  getitem g "name" = Ok (JStr n).

(** The goal is a record with a name, and the name is not [n]. *)
Definition named_otherwise (n : string) (g : json) : Prop :=
  exists v, getitem g "name" = Ok v /\ v <> JStr n.

(** The name [n] matches no goal of the collection. *)
Definition no_goal_named (n : string) (goals : list json) : Prop :=
  Forall (named_otherwise n) goals.

(** Position [i] holds [g], the first goal of the collection named [n]. *)
Definition first_named (n : string) (goals : list json) (i : nat) (g : json)
  : Prop :=
  goals !! i = Some g /\ named n g /\ no_goal_named n (take i goals).

(** Decidable form of [named]. *)
Definition is_named (n : string) (g : json) : bool :=
  match getitem g "name" with
  | Ok (JStr s) => String.eqb s n
  | _ => false
  end.

(** Run a method for the tracker it leaves. *)
Definition after {A} (c : M A) (t : tracker) : tracker := snd (c t).

(** A tracker whose document is empty. *)
Definition fresh (f : file_state) (today : date) : tracker :=
  mkTracker (mkStore [] []) f 0%nat today.

(** The goal is a record with a name. *)
Definition has_name (g : json) : Prop :=
  exists v, getitem g "name" = Ok v.

(** The system clock shows day [d]. *)
Definition on_day (d : date) (t : tracker) : tracker :=
  mkTracker (data t) (file t) (writes t) d.

(** A calendar day of a year of four digits. *)
Definition valid_date (d : date) : Prop :=
  1000 <= year d <= 9999 /\ 1 <= month d <= 12 /\
  1 <= day d <= days_in_month (year d) (month d).

(** Two dates lie in the same ISO calendar week: same ISO year and same
    week number. *)
Definition same_iso_week (d1 d2 : date) : bool :=
  let '(y1, w1) := iso_year_week d1 in
  let '(y2, w2) := iso_year_week d2 in
  (y1 =? y2) && (w1 =? w2).

(** Following the specification: the sum of the progress of the entries
    whose date lies in the ISO calendar week of [now]. *)
Fixpoint weekly_sum_iso (now : date) (acc : float) (logs : list json)
  : result float :=
  match logs with
  | [] => Ok acc
  | log :: rest =>
      (do dv <- getitem log "date";
       do d <- strptime dv;
       if same_iso_week d now
       then do p <- getitem log "progress";
            do n <- as_number p;
            weekly_sum_iso now (acc + n)%float rest
       else weekly_sum_iso now acc rest)%res
  end.




(** The value the active goals of a document come from: [active_goals],
    else the legacy [goals], else nothing. *)
Definition incoming_goals (d : list (string * json)) : json :=
  match dict_get "active_goals" d with
  | Some v => v
  | None =>
      match dict_get "goals" d with
      | Some v => v
      | None => JList []
      end
  end.

(** The value is a record, as a test. *)
Definition is_dictb (g : json) : bool :=
  match g with
  | JDict _ => true
  | _ => false
  end.

(** Active goals the loop of lines 25-28 runs over without an error: a
    list of records, or a dictionary or a string with nothing in it. *)
Definition loadable (goals : json) : bool :=
  match goals with
  | JList l => forallb is_dictb l
  | JDict [] => true
  | JStr EmptyString => true
  | _ => false
  end.

(** The record [d] with today's entry of amount [a] after its [logs]. *)
Definition with_log (today : string) (a : float) (d : list (string * json))
    (logs : list json) : list (string * json) :=
  dict_set "daily_logs"
    (JList (logs ++ [JDict [("date", JStr today); ("progress", JNum a)]])) d.

(** The document once the goal at position [i], the record [d], has
    today's entry: completed and gone from the active goals if the target
    is [reached], at its place otherwise. *)
Definition store_after_log (st : store) (today : string) (a : float)
    (i : nat) (d : list (string * json)) (logs : list json) (reached : bool)
  : store :=
  if reached
  then mkStore (delete i (active_goals st))
               (completed_goals st ++
                  [JDict (dict_set "completion_date" (JStr today)
                            (with_log today a d logs))])
  else mkStore (<[i := JDict (with_log today a d logs)]> (active_goals st))
               (completed_goals st).

(** The invariant of the specification on an active goal: its progress
    sums to less than its target. *)
Definition below_target (g : json) : Prop :=
  exists s tv t,
    total_progress g = Ok s /\
    getitem g "total_target" = Ok tv /\
    as_number tv = Ok t /\
    (s <? t)%float = true.

(** The five operations offered to the presentation layer. *)
Inductive call : Type :=
  | Add (name : string) (total_target weekly_target : float) (unit : string)
  | Delete (name : string)
  | LogProgress (name : string) (amount : float)
  | LogMissedDay (name reason : string)
  | WeeklyProgress (name : string).

(** The tracker a call leaves, whether it returned or raised. *)
Definition perform (c : call) (t : tracker) : tracker :=
  match c with
  | Add n total weekly u => after (add_goal n total weekly u) t
  | Delete n => after (delete_goal n) t
  | LogProgress n a => after (log_progress n a) t
  | LogMissedDay n r => after (log_missed_day n r) t
  | WeeklyProgress n => after (get_weekly_progress n) t
  end.

(** The trackers reached from the empty store by calls that satisfy
    [allowed], on any days. *)
Inductive reachable (allowed : call -> Prop) : tracker -> Prop :=
  | reach_fresh f today : reachable allowed (fresh f today)
  | reach_call c t :
      reachable allowed t -> allowed c -> reachable allowed (perform c t)
  | reach_day d t : reachable allowed t -> reachable allowed (on_day d t).

(** Every goal is added with a non-negative target. *)
Definition nonneg_targets (c : call) : Prop :=
  match c with
  | Add _ total _ _ => (0 <=? total)%float = true
  | _ => True
  end.

(** Every goal is added with a positive target and every amount logged is
    finite. *)
Definition positive_targets_finite_amounts (c : call) : Prop :=
  match c with
  | Add _ total _ _ => (0 <? total)%float = true
  | LogProgress _ a => is_finite a = true
  | _ => True
  end.

(** *** Sample data *)

Definition sample_day : date := mkDate 2024 3 6.

(** A goal as [load_data] leaves it. *)
Definition sample_goal : json :=
  JDict [("name", JStr "run"); ("total_target", JNum 10);
         ("weekly_target", JNum 5); ("unit", JStr "km");
         ("daily_logs", JList []); ("missed_days", JList [])].

Definition sample_tracker : tracker :=
  mkTracker (mkStore [sample_goal] []) NoFile 0%nat sample_day.

(* ===================================================================== *)
(** ** Sessions *)
(* ===================================================================== *)

(** The exception a method left with, if it raised. *)
Definition error_of {A} (r : result A) : option exn :=
  match r with
  | Ok _ => None
  | Raise e => Some e
  end.

(** The exception a call left with, if it raised. *)
Definition raised (c : call) (t : tracker) : option exn :=
  match c with
  | Add n total weekly u => error_of (fst (add_goal n total weekly u t))
  | Delete n => error_of (fst (delete_goal n t))
  | LogProgress n a => error_of (fst (log_progress n a t))
  | LogMissedDay n r => error_of (fst (log_missed_day n r t))
  | WeeklyProgress n => error_of (fst (get_weekly_progress n t))
  end.

(** A session: a tracker started on the empty document, the five methods
    called in any order on any arguments, and the days going by. *)
Inductive in_session : tracker -> Prop :=
  | session_start f today :
      valid_date today -> in_session (fresh f today)
  | session_call c t :
      in_session t -> in_session (perform c t)
  | session_day d t :
      valid_date d -> in_session t -> in_session (on_day d t).

(** An entry as [log_progress] writes it. *)
Definition session_log (l : json) : Prop :=
  exists d a,
    valid_date d /\
    l = JDict [("date", JStr (strftime d)); ("progress", JNum a)].

(** A goal as [add_goal] makes it and [log_progress] grows it. *)
Definition session_goal (g : json) : Prop :=
  exists n total weekly u logs,
    g = JDict [("name", JStr n); ("total_target", JNum total);
               ("weekly_target", JNum weekly); ("unit", JStr u);
               ("daily_logs", JList logs)] /\
    Forall session_log logs.

(** A goal as [complete_goal] leaves it. *)
Definition session_done (g : json) : Prop :=
  exists n total weekly u logs d s,
    g = JDict [("name", JStr n); ("total_target", JNum total);
               ("weekly_target", JNum weekly); ("unit", JStr u);
               ("daily_logs", JList logs);
               ("completion_date", JStr (strftime d))] /\
    Forall session_log logs /\ valid_date d /\
    sum_progress_from 0%float logs = Ok s /\
    (total <=? s)%float = true.

(** The file holds the document in memory, or nothing was ever written
    and the document is empty. *)
Definition in_sync (t : tracker) : Prop :=
  (writes t = 0%nat /\ data t = mkStore [] []) \/
  file t = Doc (doc_of_store (data t)).

(** What holds all along a session. *)
Definition session_inv (t : tracker) : Prop :=
  Forall session_goal (active_goals (data t)) /\
  Forall session_done (completed_goals (data t)) /\
  valid_date (clock t) /\
  in_sync t.

(** A goal of a session as [load_data] hands it back. *)
Definition reloaded (g : json) : json :=
  match g with
  | JDict d => JDict (d ++ [("missed_days", JList [])])
  | _ => g
  end.

(** Two lookups came to the same thing: the same goal, maybe at another
    place, or nothing, or the same exception. *)
Definition same_hit (r1 r2 : result (option (nat * json))) : Prop :=
  match r1, r2 with
  | Ok (Some (_, g1)), Ok (Some (_, g2)) => g1 = g2
  | Ok None, Ok None => True
  | Raise e1, Raise e2 => e1 = e2
  | _, _ => False
  end.

(** Proof steps that come back: the four parts of [session_inv], a
    calendar day given by its numbers, a tracker given by its calls. *)
Ltac split_inv := split; [|split; [|split]].

Ltac valid_date_tac :=
  unfold valid_date; repeat split; vm_compute; discriminate.

Ltac session_tac :=
  repeat first
    [ apply session_call
    | apply session_day; [valid_date_tac|] ];
  apply session_start; valid_date_tac.

(* ===================================================================== *)
(** ** Dictionaries, equality and lookup *)
(* ===================================================================== *)

Lemma dict_get_set_eq k v d : dict_get k (dict_set k v d) = Some v.
Proof.
  induction d as [|[k' v'] d IH]; simpl.
  - by rewrite String.eqb_refl.
  - destruct (String.eqb k k') eqn:E; simpl; rewrite E; auto.
Qed.

Lemma dict_get_set_ne k k' v d :
  k <> k' -> dict_get k' (dict_set k v d) = dict_get k' d.
Proof.
  intros Hne. induction d as [|[k0 v0] d IH]; simpl.
  - destruct (String.eqb k' k) eqn:E; [|done].
    apply String.eqb_eq in E. congruence.
  - destruct (String.eqb k k0) eqn:E; simpl.
    + apply String.eqb_eq in E. subst k0.
      destruct (String.eqb k' k) eqn:E'; [|done].
      apply String.eqb_eq in E'. congruence.
    + by rewrite IH.
Qed.

Lemma dict_get_app k d1 d2 :
  dict_get k (d1 ++ d2) =
  match dict_get k d1 with Some v => Some v | None => dict_get k d2 end.
Proof.
  induction d1 as [|[k' v'] d1 IH]; simpl; [done|].
  by destruct (String.eqb k k').
Qed.



Lemma dict_get_setdefault k v d k' :
  dict_get k' (dict_setdefault k v d) =
  match dict_get k' d with
  | Some x => Some x
  | None => if String.eqb k' k then Some v else None
  end.
Proof.
  unfold dict_setdefault. destruct (dict_get k d) eqn:E.
  - destruct (dict_get k' d) eqn:E'; [done|].
    destruct (String.eqb k' k) eqn:Ek; [|done].
    apply String.eqb_eq in Ek. congruence.
  - rewrite dict_get_app. destruct (dict_get k' d); [done|]. simpl.
    by destruct (String.eqb k' k).
Qed.

Lemma py_eq_str v s : py_eq v (JStr s) = true <-> v = JStr s.
Proof.
  destruct v; simpl; try (split; [discriminate|congruence]).
  rewrite String.eqb_eq. split; congruence.
Qed.

Lemma py_eq_str_false v s : v <> JStr s -> py_eq v (JStr s) = false.
Proof.
  intros H. destruct (py_eq v (JStr s)) eqn:E; [|done].
  by apply py_eq_str in E.
Qed.

(** Equal dictionaries agree, up to [==], on every key of the first. *)
Lemma py_eq_dict_get d1 d2 k v1 :
  py_eq (JDict d1) (JDict d2) = true ->
  dict_get k d1 = Some v1 ->
  exists v2, dict_get k d2 = Some v2 /\ py_eq v1 v2 = true.
Proof.
  simpl. intros H. apply andb_prop in H as [_ H]. revert H.
  induction d1 as [|[k' v'] d1 IH]; simpl; [done|].
  intros H. apply andb_prop in H as [Hv Hrest].
  destruct (String.eqb k k') eqn:E.
  - apply String.eqb_eq in E. subst k'. intros [= <-].
    destruct (dict_get k d2) as [v2|]; [|done]. eauto.
  - by apply IH.
Qed.

(** A goal that equals a goal named [n] is named [n]. *)
Lemma py_eq_named n e g :
  named n g -> py_eq e g = true ->
  forall v, getitem e "name" = Ok v -> v = JStr n.
Proof.
  unfold named. intros Hg Heq v Hv.
  destruct g as [| | | | |dg]; try discriminate.
  destruct e as [| | | | |de]; try discriminate.
  simpl in Hg, Hv.
  destruct (dict_get "name" de) as [ve|] eqn:Ee; [|discriminate].
  injection Hv as ->.
  destruct (py_eq_dict_get _ _ _ _ Heq Ee) as (v2 & Hv2 & Hvv).
  rewrite Hv2 in Hg. injection Hg as ->. by apply py_eq_str.
Qed.

(* ===================================================================== *)
(** ** Looking a goal up by name *)
(* ===================================================================== *)

Lemma find_goal_none n goals :
  no_goal_named n goals -> find_goal n goals = Ok None.
Proof.
  induction 1 as [|g goals (v & Hv & Hne) _ IH]; simpl; [done|].
  rewrite Hv. simpl. rewrite (py_eq_str_false _ _ Hne). by rewrite IH.
Qed.

Lemma find_goal_first n goals i g :
  first_named n goals i g -> find_goal n goals = Ok (Some (i, g)).
Proof.
  revert i. induction goals as [|g0 goals IH]; intros i (Hi & Hg & Hno).
  - by rewrite lookup_nil in Hi.
  - destruct i as [|i]; simpl in *.
    + injection Hi as ->. rewrite Hg. simpl. by rewrite String.eqb_refl.
    + apply Forall_cons in Hno as [(v & Hv & Hne) Hno].
      rewrite Hv. simpl. rewrite (py_eq_str_false _ _ Hne).
      by rewrite (IH i).
Qed.

(** What the loop finds is in the list, at the position returned. *)
Lemma find_goal_lookup n goals i g :
  find_goal n goals = Ok (Some (i, g)) -> goals !! i = Some g.
Proof.
  revert i. induction goals as [|g0 goals IH]; intros i; simpl; [done|].
  destruct (getitem g0 "name") as [v|]; simpl; [|done].
  destruct (py_eq v (JStr n)).
  - by intros [= <- <-].
  - destruct (find_goal n goals) as [[[j g']|]|]; simpl; try done.
    intros [= <- <-]. by apply IH.
Qed.

Lemma find_goal_named n goals i g :
  find_goal n goals = Ok (Some (i, g)) -> first_named n goals i g.
Proof.
  revert i. induction goals as [|g0 goals IH]; intros i; simpl; [done|].
  destruct (getitem g0 "name") as [v|] eqn:Hv; simpl; [|done].
  destruct (py_eq v (JStr n)) eqn:E.
  - intros [= <- <-]. apply py_eq_str in E. subst v.
    repeat split; try done. constructor.
  - destruct (find_goal n goals) as [[[j g']|]|]; simpl; try done.
    intros [= <- <-]. destruct (IH j eq_refl) as (Hj & Hg & Hno).
    repeat split; try done. simpl. constructor; [|done].
    exists v. split; [done|]. intros ->. simpl in E.
    by rewrite String.eqb_refl in E.
Qed.

(** [remove] takes out the very goal the loop stopped at: no goal before
    it bears its name, so none before it equals it. *)
Lemma py_remove_first n goals i g g' :
  first_named n goals i g -> named n g' ->
  py_remove i g' (<[i := g']> goals) = Ok (delete i goals).
Proof.
  intros (Hi & _ & Hno) Hg'. revert i Hi Hno.
  induction goals as [|g0 goals IH]; intros i Hi Hno.
  - by rewrite lookup_nil in Hi.
  - destruct i as [|i]; simpl in *; [done|].
    apply Forall_cons in Hno as [(v & Hv & Hne) Hno].
    destruct (py_eq g0 g') eqn:E.
    + exfalso. apply Hne. by eapply py_eq_named.
    + by rewrite (IH i).
Qed.

(* ===================================================================== *)
(** ** Calls that name no active goal *)
(* ===================================================================== *)

(** Outside the data model: a record without a name, which a file can
    hold and [load_data] lets through, makes every lookup by name raise. *)
Example nameless_goal_raises :
  GoalTracker (Doc (JDict [("active_goals", JList [JDict []])])) sample_day
    = Some (mkTracker
              (mkStore [JDict [("unit", JStr "units");
                               ("missed_days", JList []);
                               ("daily_logs", JList [])]] [])
              (Doc (JDict [("active_goals", JList [JDict []])]))
              0%nat sample_day) /\
  forall t, GoalTracker (Doc (JDict [("active_goals", JList [JDict []])]))
              sample_day = Some t ->
    log_progress "run" 1 t = (Raise (KeyError "name"), t) /\
    delete_goal "run" t = (Raise (KeyError "name"), t) /\
    get_weekly_progress "run" t = (Raise (KeyError "name"), t).
Proof.
  split; [reflexivity|]. intros t [= <-]. repeat split.
Qed.

(** C3. When the name matches no active goal, [log_progress] and
    [log_missed_day] both return [False] without raising, and the tracker
    (active goals, completed goals, file) is left exactly as it was. *)
Theorem log_unknown_goal_fails (t : tracker) (n : string) (a : float)
    (r : string) :
  no_goal_named n (active_goals (data t)) ->
  log_progress n a t = (Ok false, t) /\
  log_missed_day n r t = (Ok false, t).
Proof.
  intros Hno. apply find_goal_none in Hno.
  unfold log_progress, log_missed_day, mbind, today_str, gets, lift, mret.
  by rewrite Hno.
Qed.

Lemma log_unknown_goal_fails_witness :
  log_progress "swim" 3 sample_tracker = (Ok false, sample_tracker) /\
  log_missed_day "swim" "flu" sample_tracker = (Ok false, sample_tracker).
Proof.
  apply (log_unknown_goal_fails sample_tracker "swim" 3 "flu").
  repeat constructor. exists (JStr "run"). split; [reflexivity|discriminate].
Defined.

(** C8. When the name matches no active goal (whatever the completed
    goals are), [get_weekly_progress] returns [0] without raising. *)
Theorem weekly_progress_unknown_goal (t : tracker) (n : string) :
  no_goal_named n (active_goals (data t)) ->
  get_weekly_progress n t = (Ok 0%float, t).
Proof.
  intros Hno. apply find_goal_none in Hno.
  unfold get_weekly_progress, mbind, gets, lift, mret.
  by rewrite Hno.
Qed.

Lemma weekly_progress_unknown_goal_witness :
  get_weekly_progress "swim" sample_tracker = (Ok 0%float, sample_tracker).
Proof.
  apply (weekly_progress_unknown_goal sample_tracker "swim").
  repeat constructor. exists (JStr "run"). split; [reflexivity|discriminate].
Defined.

(** The name of a goal that was completed matches no active goal. *)
Example weekly_progress_completed_goal :
  let t := after (do _ <- add_goal "run" 10 5 "km";
                  do _ <- log_progress "run" 6;
                  log_progress "run" 5)%trk (fresh NoFile sample_day) in
  map (fun g => getitem g "name") (completed_goals (data t))
    = [Ok (JStr "run")] /\
  get_weekly_progress "run" t = (Ok 0%float, t).
Proof. split; reflexivity. Qed.

Lemma get_weekly_progress_state (t : tracker) (n : string) :
  snd (get_weekly_progress n t) = t.
Proof.
  unfold get_weekly_progress, mbind, gets, lift, mret.
  destruct (find_goal n (active_goals (data t))) as [[[i g]|]|]; reflexivity.
Qed.

(** C10. [get_weekly_progress] is a pure read: whatever it returns or
    raises, the active goals, the completed goals, the file and the count
    of writes are what they were. *)
Theorem weekly_progress_pure (t : tracker) (n : string) :
  after (get_weekly_progress n) t = t.
Proof. apply get_weekly_progress_state. Qed.

(* ===================================================================== *)
(** ** [delete_goal] *)
(* ===================================================================== *)

Lemma is_named_py_eq n g v :
  getitem g "name" = Ok v -> py_eq v (JStr n) = is_named n g.
Proof.
  unfold is_named. intros ->. by destruct v.
Qed.

Lemma keep_others_filter n goals :
  Forall has_name goals ->
  keep_others n goals = Ok (List.filter (fun g => negb (is_named n g)) goals).
Proof.
  induction 1 as [|g goals [v Hv] _ IH]; simpl; [done|].
  rewrite Hv, IH. simpl. by rewrite (is_named_py_eq n g v Hv).
Qed.

Lemma no_goal_named_has_name n goals :
  no_goal_named n goals -> Forall has_name goals.
Proof.
  intros H. eapply Forall_impl; [exact H|].
  intros g (v & Hv & _). by exists v.
Qed.

Lemma filter_no_goal_named n goals :
  no_goal_named n goals ->
  List.filter (fun g => negb (is_named n g)) goals = goals.
Proof.
  induction 1 as [|g goals (v & Hv & Hne) _ IH]; simpl; [done|].
  rewrite <- (is_named_py_eq n g v Hv), (py_eq_str_false _ _ Hne). simpl.
  by rewrite IH.
Qed.

(** C4. On a store whose active goals all have a name, [delete_goal]
    returns without raising; the active goals left are those not named
    [n], in their order (so every match is gone, not just the first); the
    completed goals are untouched; and when no active goal is named [n]
    both collections are what they were. *)
Theorem delete_goal_removes_all (t : tracker) (n : string) :
  Forall has_name (active_goals (data t)) ->
  exists t',
    delete_goal n t = (Ok tt, t') /\
    active_goals (data t') =
      List.filter (fun g => negb (is_named n g)) (active_goals (data t)) /\
    completed_goals (data t') = completed_goals (data t) /\
    (no_goal_named n (active_goals (data t)) -> data t' = data t).
Proof.
  intros Hnames.
  unfold delete_goal, mbind, gets, lift, set_active, save_data.
  rewrite (keep_others_filter n _ Hnames). simpl.
  eexists. split; [reflexivity|]. simpl. repeat split.
  intros Hno. rewrite (filter_no_goal_named n _ Hno). by destruct (data t).
Qed.

Lemma delete_goal_removes_all_witness :
  exists t',
    delete_goal "run" sample_tracker = (Ok tt, t') /\
    active_goals (data t') =
      List.filter (fun g => negb (is_named "run" g))
        (active_goals (data sample_tracker)) /\
    completed_goals (data t') = completed_goals (data sample_tracker) /\
    (no_goal_named "run" (active_goals (data sample_tracker)) ->
     data t' = data sample_tracker).
Proof.
  apply (delete_goal_removes_all sample_tracker "run").
  repeat constructor. exists (JStr "run"). reflexivity.
Defined.

(** Two goals of one name go together, the goal between them stays. *)
Example delete_goal_duplicates :
  let t := after (do _ <- add_goal "run" 10 5 "km";
                  do _ <- add_goal "read" 300 20 "pages";
                  add_goal "run" 42 7 "km")%trk (fresh NoFile sample_day) in
  map (fun g => getitem g "name") (active_goals (data t)) =
    [Ok (JStr "run"); Ok (JStr "read"); Ok (JStr "run")] /\
  map (fun g => getitem g "name")
      (active_goals (data (after (delete_goal "run") t))) =
    [Ok (JStr "read")].
Proof. split; reflexivity. Qed.

(* ===================================================================== *)
(** ** [log_missed_day] *)
(* ===================================================================== *)

(** On a goal that has its list of missed days, the entry is appended at
    the end, the call returns [True], and the document is saved. *)
Lemma log_missed_day_appends (t : tracker) (n r : string) (i : nat)
    (d : list (string * json)) (ms : list json) :
  first_named n (active_goals (data t)) i (JDict d) ->
  dict_get "missed_days" d = Some (JList ms) ->
  let entry := JDict [("date", JStr (strftime (clock t))); ("reason", JStr r)] in
  let goal' := JDict (dict_set "missed_days" (JList (ms ++ [entry])) d) in
  let st' := mkStore (<[i := goal']> (active_goals (data t)))
                     (completed_goals (data t)) in
  log_missed_day n r t =
    (Ok true, mkTracker st' (Doc (doc_of_store st')) (S (writes t)) (clock t)).
Proof.
  intros Hfirst Hms. apply find_goal_first in Hfirst.
  unfold log_missed_day, mbind, today_str, gets, lift, mret.
  rewrite Hfirst. unfold append_to. simpl. by rewrite Hms.
Qed.

(** C9 (what the code does). A goal made by [add_goal] has no
    [missed_days] field, so [log_missed_day] on it in the same session
    raises [KeyError] instead of returning [True]; nothing is appended. *)
Theorem log_missed_day_after_add :
  let t := after (add_goal "run" 10 5 "km") (fresh NoFile sample_day) in
  log_missed_day "run" "flu" t = (Raise (KeyError "missed_days"), t).
Proof. reflexivity. Qed.

(** The same on any store: the goal just added is the first of its name,
    and the call on it raises. *)
Lemma log_missed_day_on_added_goal (t : tracker) (n u r : string)
    (total weekly : float) :
  no_goal_named n (active_goals (data t)) ->
  let t' := after (add_goal n total weekly u) t in
  log_missed_day n r t' = (Raise (KeyError "missed_days"), t').
Proof.
  intros Hno t'.
  assert (Hfirst : first_named n (active_goals (data t'))
                     (length (active_goals (data t)))
                     (JDict [("name", JStr n); ("total_target", JNum total);
                             ("weekly_target", JNum weekly); ("unit", JStr u);
                             ("daily_logs", JList [])])).
  { subst t'. simpl. repeat split.
    - by rewrite lookup_app_r, Nat.sub_diag.
    - by rewrite take_app_length. }
  apply find_goal_first in Hfirst.
  unfold log_missed_day, mbind, today_str, gets, lift, mret.
  by rewrite Hfirst.
Qed.

(* ===================================================================== *)
(** ** Saving and loading *)
(* ===================================================================== *)

(** C7 (what the code does). The goal [add_goal] made is saved without a
    [missed_days] field and comes back from the file with one: the
    document loaded is not the document saved. *)
Theorem save_load_after_add :
  let t := after (add_goal "run" 10 5 "km") (fresh NoFile sample_day) in
  let saved := JDict [("name", JStr "run"); ("total_target", JNum 10);
                      ("weekly_target", JNum 5); ("unit", JStr "km");
                      ("daily_logs", JList [])] in
  let loaded := JDict [("name", JStr "run"); ("total_target", JNum 10);
                       ("weekly_target", JNum 5); ("unit", JStr "km");
                       ("daily_logs", JList []); ("missed_days", JList [])] in
  data t = mkStore [saved] [] /\
  file (after save_data t) = Doc (doc_of_store (data t)) /\
  GoalTracker (file (after save_data t)) sample_day
    = Some (mkTracker (mkStore [loaded] []) (file (after save_data t))
                      0%nat sample_day) /\
  getitem saved "missed_days" = Raise (KeyError "missed_days") /\
  getitem loaded "missed_days" = Ok (JList []).
Proof. repeat split. Qed.

(* ===================================================================== *)
(** ** [log_progress] and completion *)
(* ===================================================================== *)

Lemma sum_progress_from_app acc logs e :
  sum_progress_from acc (logs ++ [e]) =
  (do s <- sum_progress_from acc logs;
   do p <- getitem e "progress";
   do n <- as_number p;
   Ok (s + n)%float)%res.
Proof.
  revert acc. induction logs as [|l logs IH]; intros acc; simpl.
  - destruct (getitem e "progress") as [p|]; simpl; [|done].
    by destruct (as_number p).
  - destruct (getitem l "progress") as [p|]; simpl; [|done].
    destruct (as_number p); simpl; [|done]. apply IH.
Qed.

Lemma named_dict_set n k v d :
  k <> "name" -> named n (JDict d) -> named n (JDict (dict_set k v d)).
Proof.
  unfold named. simpl. intros Hk. by rewrite dict_get_set_ne.
Qed.

(** What [log_progress] does on the first goal named [n]. *)
Lemma log_progress_run (t : tracker) (n : string) (a : float)
    (i : nat) (d : list (string * json)) (logs : list json) (s : float)
    (tv : json) (target : float) :
  first_named n (active_goals (data t)) i (JDict d) ->
  dict_get "daily_logs" d = Some (JList logs) ->
  sum_progress_from 0%float logs = Ok s ->
  dict_get "total_target" d = Some tv ->
  as_number tv = Ok target ->
  let today := strftime (clock t) in
  let reached := (target <=? s + a)%float in
  let st' := store_after_log (data t) today a i d logs reached in
  total_progress (JDict (with_log today a d logs)) = Ok (s + a)%float /\
  log_progress n a t =
    (Ok true,
     mkTracker st' (Doc (doc_of_store st'))
               (if reached then S (S (writes t)) else S (writes t))
               (clock t)).
Proof.
  intros Hfirst Hlogs Hsum Htv Htarget today reached st'.
  set (logged := with_log today a d logs).
  assert (Htotal : total_progress (JDict logged) = Ok (s + a)%float).
  { unfold total_progress, logged, with_log. simpl.
    rewrite dict_get_set_eq. simpl.
    rewrite sum_progress_from_app, Hsum. reflexivity. }
  split; [exact Htotal|].
  pose proof (find_goal_first _ _ _ _ Hfirst) as Hfind.
  unfold log_progress, mbind at 1 2 3, today_str, gets, lift.
  rewrite Hfind. unfold append_to.
  change (getitem (JDict d) "daily_logs") with
    (match dict_get "daily_logs" d with
     | Some x => Ok x | None => Raise (KeyError "daily_logs") end).
  rewrite Hlogs.
  change (rbind (Ok (JList logs)) _) with (Ok (JDict logged) : result json).
  unfold mbind at 1 2 3 4, set_goal, mbind at 1, gets, set_active, lift.
  rewrite Htotal.
  change (getitem (JDict logged) "total_target") with
    (match dict_get "total_target" logged with
     | Some x => Ok x | None => Raise (KeyError "total_target") end).
  unfold logged at 1, with_log. rewrite dict_get_set_ne by done. rewrite Htv.
  unfold py_ge. rewrite Htarget.
  change (rbind (Ok target) _) with (Ok reached).
  cbv beta iota. subst st'. unfold store_after_log. destruct reached.
  - cbv [complete_goal mbind today_str gets lift set_goal set_active
           set_completed save_data mret setitem data active_goals
           completed_goals clock file writes].
    rewrite list_insert_insert_eq.
    rewrite (py_remove_first n _ i (JDict d)); [reflexivity|exact Hfirst|].
    destruct Hfirst as (_ & Hn & _).
    apply named_dict_set; [done|]. apply named_dict_set; [done|]. exact Hn.
  - reflexivity.
Qed.


(** C1 (amended to the first goal of the name). Let [JDict d] be the first
    active goal named [n], with a list of logs whose progress sums to [s]
    and a numeric target.  [log_progress n a] appends the entry of today
    to its logs and returns [True].  If the new sum [s + a] reaches the
    target, the goal, stamped with today as [completion_date], is appended
    to the completed goals and leaves the active goals; otherwise it stays
    active, at its place.  The document is saved. *)
Theorem log_progress_first_goal (t : tracker) (n : string) (a : float)
    (i : nat) (d : list (string * json)) (logs : list json) (s : float)
    (tv : json) (target : float) :
  first_named n (active_goals (data t)) i (JDict d) ->
  dict_get "daily_logs" d = Some (JList logs) ->
  sum_progress_from 0%float logs = Ok s ->
  dict_get "total_target" d = Some tv ->
  as_number tv = Ok target ->
  let today := strftime (clock t) in
  let entry := JDict [("date", JStr today); ("progress", JNum a)] in
  let logged := dict_set "daily_logs" (JList (logs ++ [entry])) d in
  let reached := (target <=? s + a)%float in
  let st' :=
    if reached
    then mkStore (delete i (active_goals (data t)))
                 (completed_goals (data t) ++
                    [JDict (dict_set "completion_date" (JStr today) logged)])
    else mkStore (<[i := JDict logged]> (active_goals (data t)))
                 (completed_goals (data t)) in
  total_progress (JDict logged) = Ok (s + a)%float /\
  log_progress n a t =
    (Ok true,
     mkTracker st' (Doc (doc_of_store st'))
               (if reached then S (S (writes t)) else S (writes t))
               (clock t)).
Proof.
  intros Hfirst Hlogs Hsum Htv Htarget.
  exact (log_progress_run t n a i d logs s tv target
           Hfirst Hlogs Hsum Htv Htarget).
Qed.

Lemma log_progress_first_goal_witness :
  total_progress
    (JDict [("name", JStr "run"); ("total_target", JNum 10);
            ("weekly_target", JNum 5); ("unit", JStr "km");
            ("daily_logs",
             JList [JDict [("date", JStr "2024-03-06"); ("progress", JNum 6)]]);
            ("missed_days", JList [])]) = Ok 6%float /\
  log_progress "run" 6 sample_tracker =
    (Ok true,
     let st' :=
       mkStore
         [JDict [("name", JStr "run"); ("total_target", JNum 10);
                 ("weekly_target", JNum 5); ("unit", JStr "km");
                 ("daily_logs",
                  JList [JDict [("date", JStr "2024-03-06");
                                ("progress", JNum 6)]]);
                 ("missed_days", JList [])]] [] in
     mkTracker st' (Doc (doc_of_store st')) 1%nat sample_day).
Proof.
  apply (log_progress_first_goal sample_tracker "run" 6 0
           [("name", JStr "run"); ("total_target", JNum 10);
            ("weekly_target", JNum 5); ("unit", JStr "km");
            ("daily_logs", JList []); ("missed_days", JList [])]
           [] 0 (JNum 10) 10).
  - repeat split. constructor.
  - reflexivity.
  - reflexivity.
  - reflexivity.
  - reflexivity.
Defined.

(** The completion trigger of the specification: a goal with target 10 and
    no logs stays active after logging 6 and is completed, stamped and out
    of the active goals, after logging 5 more. *)
Example completion_trigger_example :
  let t0 := after (add_goal "run" 10 5 "km") (fresh NoFile sample_day) in
  let r1 := log_progress "run" 6 t0 in
  let r2 := log_progress "run" 5 (snd r1) in
  fst r1 = Ok true /\
  map (fun g => getitem g "name") (active_goals (data (snd r1)))
    = [Ok (JStr "run")] /\
  completed_goals (data (snd r1)) = [] /\
  fst r2 = Ok true /\
  active_goals (data (snd r2)) = [] /\
  map (fun g => (getitem g "name", getitem g "completion_date",
                 total_progress g))
      (completed_goals (data (snd r2)))
    = [(Ok (JStr "run"), Ok (JStr "2024-03-06"), Ok 11%float)].
Proof. repeat split. Qed.

(** C1 as stated fails on a second goal of the same name: the call
    returns [True], yet that goal, active and named [n], gets no entry. *)
Lemma log_progress_skips_second_goal :
  let t := after (do _ <- add_goal "run" 10 5 "km";
                  add_goal "run" 20 5 "km")%trk (fresh NoFile sample_day) in
  let r := log_progress "run" 3 t in
  exists g,
    active_goals (data t) !! 1%nat = Some g /\
    named "run" g /\
    fst r = Ok true /\
    active_goals (data (snd r)) !! 1%nat = Some g /\
    getitem g "daily_logs" = Ok (JList []).
Proof. eexists. repeat split. Qed.

(* ===================================================================== *)
(** ** [get_weekly_progress] *)
(* ===================================================================== *)

(** On a goal found, the query sums from the left the progress of the
    entries whose week number is the week number of today. *)
Lemma weekly_progress_found (t : tracker) (n : string) (i : nat)
    (d : list (string * json)) (logs : list json) :
  first_named n (active_goals (data t)) i (JDict d) ->
  dict_get "daily_logs" d = Some (JList logs) ->
  get_weekly_progress n t =
    (weekly_sum_from (iso_week (clock t)) 0%float logs, t).
Proof.
  intros Hfirst Hlogs. apply find_goal_first in Hfirst.
  unfold get_weekly_progress, mbind, gets, lift. rewrite Hfirst.
  simpl. by rewrite Hlogs.
Qed.

(** The week number decides alone: the code agrees with the
    specification as long as no entry shares the week number of today
    without sharing its ISO year. *)
Lemma weekly_sum_from_iso (now : date) (logs : list json) (acc : float) :
  Forall (fun log => forall dv d,
            getitem log "date" = Ok dv -> strptime dv = Ok d ->
            iso_week d = iso_week now -> same_iso_week d now = true) logs ->
  weekly_sum_from (iso_week now) acc logs = weekly_sum_iso now acc logs.
Proof.
  intros H. revert acc. induction H as [|log logs Hlog _ IH]; intros acc.
  - reflexivity.
  - simpl. destruct (getitem log "date") as [dv|] eqn:Hdv; simpl; [|done].
    destruct (strptime dv) as [d|] eqn:Hd; simpl; [|done].
    destruct (iso_week d =? iso_week now) eqn:E.
    + apply Z.eqb_eq in E. rewrite (Hlog dv d eq_refl Hd E).
      destruct (getitem log "progress") as [p|]; simpl; [|done].
      destruct (as_number p); simpl; [|done]. apply IH.
    + assert (same_iso_week d now = false) as ->; [|apply IH].
      unfold same_iso_week, iso_week, iso_year_week in *.
      destruct (isocalendar d) as [[y1 w1] wd1].
      destruct (isocalendar now) as [[y2 w2] wd2]. simpl in *.
      rewrite E. apply andb_false_r.
Qed.

(** C5 (what the code does). A goal logged on 8 March 2023 and on 6 March
    2024: the two days lie in different ISO calendar weeks (week 10 of
    2023, week 10 of 2024), yet on 6 March 2024 the query adds both
    entries, 1 + 2 = 3, where the week of that day holds 2. *)
Theorem weekly_progress_mixes_years :
  let day1 := mkDate 2023 3 8 in
  let day2 := mkDate 2024 3 6 in
  let t1 := after (add_goal "run" 100 5 "km") (fresh NoFile day1) in
  let t2 := after (log_progress "run" 1) t1 in
  let t3 := after (log_progress "run" 2) (on_day day2 t2) in
  iso_year_week day1 = (2023, 10) /\
  iso_year_week day2 = (2024, 10) /\
  same_iso_week day1 day2 = false /\
  get_weekly_progress "run" t3 = (Ok 3%float, t3) /\
  (do g <- default (Raise ValueError) (Ok <$> active_goals (data t3) !! 0%nat);
   do logs <- getitem g "daily_logs";
   do entries <- py_iter logs;
   weekly_sum_iso day2 0%float entries)%res = Ok 2%float.
Proof. repeat split. Qed.

(* ===================================================================== *)
(** ** [load_data] *)
(* ===================================================================== *)



Lemma migrate_legacy_dict d :
  migrate_legacy (JDict d) =
  Ok (JDict match dict_get "goals" d, dict_get "active_goals" d with
            | Some v, None => dict_set "active_goals" v (dict_del "goals" d)
            | _, _ => d
            end).
Proof.
  unfold migrate_legacy, py_contains, py_pop, dict_mem.
  destruct (dict_get "goals" d) as [v|]; [|done].
  by destruct (dict_get "active_goals" d).
Qed.





(** Saving a store whose active goals are records with the three fields
    and loading it gives the same document back. *)
Lemma save_load_normalised (t : tracker) :
  Forall (fun g => exists d u m l,
            g = JDict d /\ dict_get "unit" d = Some u /\
            dict_get "missed_days" d = Some m /\
            dict_get "daily_logs" d = Some l) (active_goals (data t)) ->
  GoalTracker (file (after save_data t)) (clock t)
    = Some (mkTracker (data t) (file (after save_data t)) 0%nat (clock t)).
Proof.
  intros H. unfold GoalTracker, after, save_data. simpl.
  unfold normalise_doc. simpl.
  assert (Hn : normalise_goals (active_goals (data t))
               = Ok (active_goals (data t))).
  { induction H as [|g goals (d & u & m & l & -> & Hu & Hm & Hl) _ IH];
      [done|].
    cbn [normalise_goals]. rewrite IH.
    unfold normalise_goal, setdefault, dict_setdefault. simpl.
    rewrite Hu. simpl. rewrite Hm. simpl. by rewrite Hl. }
  rewrite Hn. simpl. by destruct (data t).
Qed.

(* ===================================================================== *)
(** ** Binary64 arithmetic *)
(* ===================================================================== *)

(** The facts below are read off the binary64 specification
    ([SpecFloat]) that the primitive operations of [float] obey. *)

Lemma shr_1_nonneg mrs : 0 <= shr_m mrs -> 0 <= shr_m (shr_1 mrs).
Proof.
  destruct mrs as [m r s]. simpl.
  destruct m as [|[p|p|]|[p|p|]]; simpl; lia.
Qed.

Lemma iter_pos_invariant {A} (P : A -> Prop) (f : A -> A) :
  (forall x, P x -> P (f x)) ->
  forall n x, P x -> P (SpecFloat.iter_pos f n x).
Proof.
  intros Hf. induction n as [n IH|n IH|]; simpl; intros x Hx; auto.
Qed.

Lemma shr_nonneg mrs e n : 0 <= shr_m mrs -> 0 <= shr_m (fst (shr mrs e n)).
Proof.
  intros H. destruct n as [|p|p]; simpl; [done| |done].
  by apply (iter_pos_invariant (fun r => 0 <= shr_m r)), H; apply shr_1_nonneg.
Qed.

Lemma shr_fexp_nonneg m e l :
  0 <= m -> 0 <= shr_m (fst (shr_fexp prec emax m e l)).
Proof.
  intros H. unfold shr_fexp. apply shr_nonneg.
  by destruct l as [|[]].
Qed.

Lemma round_nearest_even_nonneg m l : 0 <= m -> 0 <= round_nearest_even m l.
Proof.
  intros H. destruct l as [|[]]; simpl; try lia.
  destruct (Z.even m); lia.
Qed.

Lemma binary_round_aux_not_nan sx mx ex lx :
  0 <= mx -> binary_round_aux prec emax sx mx ex lx <> S754_nan.
Proof.
  intros H. unfold binary_round_aux.
  pose proof (shr_fexp_nonneg mx ex lx H) as H1.
  destruct (shr_fexp prec emax mx ex lx) as [mrs' e']. simpl in H1.
  pose proof (shr_fexp_nonneg _ e' loc_Exact
                (round_nearest_even_nonneg _ (loc_of_shr_record mrs') H1))
    as H2.
  destruct (shr_fexp prec emax _ e' loc_Exact) as [mrs'' e'']. simpl in H2.
  destruct (shr_m mrs'') as [|p|p]; [done| |lia].
  by destruct (e'' <=? emax - prec).
Qed.

Lemma binary_normalize_not_nan m e sz :
  binary_normalize prec emax m e sz <> S754_nan.
Proof.
  destruct m as [|p|p]; simpl; [done| |].
  - unfold binary_round. destruct (shl_align _ _ _) as [mz ez].
    by apply binary_round_aux_not_nan.
  - unfold binary_round. destruct (shl_align _ _ _) as [mz ez].
    by apply binary_round_aux_not_nan.
Qed.

Lemma SFcompare_antisym x y c :
  SFcompare x y = Some c -> SFcompare y x = Some (CompOpp c).
Proof.
  destruct x as [sx|sx| |sx mx ex], y as [sy|sy| |sy my ey]; simpl;
    try discriminate;
    try (intros [= <-]; by repeat match goal with b : bool |- _ => destruct b end).
  intros [= <-]. f_equal.
  assert (Hp : PosDef.Pos.compare_cont Eq my mx
               = CompOpp (PosDef.Pos.compare_cont Eq mx my))
    by (symmetry; apply (Pos.compare_cont_antisym mx my Eq)).
  rewrite (Z.compare_antisym ex ey), Hp.
  destruct sx, sy; simpl; try done.
  - by destruct (ex ?= ey); simpl; rewrite ?CompOpp_involutive.
  - by destruct (ex ?= ey); simpl.
Qed.

Lemma SFcompare_total x y :
  x <> S754_nan -> y <> S754_nan -> exists c, SFcompare x y = Some c.
Proof.
  destruct x, y; simpl; try done; eauto.
Qed.

(** A sum that starts below a target and grows by a finite amount is a
    number still: when it has not reached the target, it is below. *)
Lemma below_target_after_add (s a t : float) :
  (s <? t)%float = true ->
  is_finite a = true ->
  (t <=? s + a)%float = false ->
  (s + a <? t)%float = true.
Proof.
  unfold is_finite, is_nan, is_infinity. intros Hlt Hfin Hle.
  rewrite FloatAxioms.ltb_spec in Hlt |- *.
  rewrite FloatAxioms.leb_spec in Hle.
  rewrite !FloatAxioms.eqb_spec, FloatAxioms.abs_spec in Hfin.
  rewrite FloatAxioms.add_spec in Hle |- *.
  change (Prim2SF infinity) with (S754_infinity false) in Hfin.
  unfold SFltb, SFleb, SFeqb, SF64add in *.
  assert (Hsum : SFadd prec emax (Prim2SF s) (Prim2SF a) <> S754_nan).
  { destruct (Prim2SF s) as [ss|[]| |ss ms es],
             (Prim2SF a) as [sa|[]| |sa ma ea]; simpl in *; try done.
    - by destruct ss, sa.
    - apply binary_normalize_not_nan. }
  assert (Ht : Prim2SF t <> S754_nan).
  { intros E. rewrite E in Hlt. by destruct (Prim2SF s). }
  destruct (SFcompare_total _ _ Ht Hsum) as [c Hc].
  rewrite Hc in Hle. rewrite (SFcompare_antisym _ _ _ Hc).
  by destruct c.
Qed.

(* ===================================================================== *)
(** ** The invariant of the active goals *)
(* ===================================================================== *)

Lemma keep_others_Forall (P : json -> Prop) n goals kept :
  keep_others n goals = Ok kept -> Forall P goals -> Forall P kept.
Proof.
  revert kept. induction goals as [|g goals IH]; intros kept; simpl.
  - by intros [= <-].
  - destruct (getitem g "name") as [v|]; simpl; [|done].
    destruct (keep_others n goals) as [rest|]; simpl; [|done].
    intros [= <-] [Hg Hrest]%Forall_cons.
    destruct (negb (py_eq v (JStr n))); auto.
Qed.

Lemma add_goal_below (t : tracker) (n u : string) (total weekly : float) :
  (0 <? total)%float = true ->
  Forall below_target (active_goals (data t)) ->
  Forall below_target (active_goals (data (after (add_goal n total weekly u) t))).
Proof.
  intros Hpos H. simpl. apply Forall_app_2; [done|].
  apply Forall_singleton. by exists 0%float, (JNum total), total.
Qed.

Lemma delete_goal_below (t : tracker) (n : string) :
  Forall below_target (active_goals (data t)) ->
  Forall below_target (active_goals (data (after (delete_goal n) t))).
Proof.
  intros H. unfold after, delete_goal, mbind, gets, lift.
  destruct (keep_others n (active_goals (data t))) as [kept|] eqn:E; [|done].
  simpl. by eapply keep_others_Forall.
Qed.

Lemma below_target_other_field k v d :
  k <> "daily_logs" -> k <> "total_target" ->
  below_target (JDict d) -> below_target (JDict (dict_set k v d)).
Proof.
  intros H1 H2 (s & tv & t & Hs & Htv & Ht & Hlt).
  exists s, tv, t. repeat split; try done.
  - unfold total_progress in *. simpl in *. by rewrite dict_get_set_ne.
  - simpl in *. by rewrite dict_get_set_ne.
Qed.

Lemma log_missed_day_below (t : tracker) (n r : string) :
  Forall below_target (active_goals (data t)) ->
  Forall below_target (active_goals (data (after (log_missed_day n r) t))).
Proof.
  intros H. unfold after, log_missed_day, mbind, today_str, gets, lift, mret.
  destruct (find_goal n (active_goals (data t))) as [[[i g]|]|] eqn:Hfind;
    [|done|done].
  pose proof (Forall_lookup_1 _ _ _ _ H (find_goal_lookup _ _ _ _ Hfind)) as Hg.
  unfold append_to.
  destruct (getitem g "missed_days") as [l|] eqn:Hl; [|done]. simpl.
  destruct (py_append l _) as [l'|] eqn:Hl'; [|done]. simpl.
  destruct g as [| | | | |d]; try done. simpl.
  apply Forall_insert; [done|]. by apply below_target_other_field.
Qed.

Lemma log_progress_below (t : tracker) (n : string) (a : float) :
  is_finite a = true ->
  Forall below_target (active_goals (data t)) ->
  Forall below_target (active_goals (data (after (log_progress n a) t))).
Proof.
  intros Hfin H.
  destruct (find_goal n (active_goals (data t))) as [[[i g]|]|] eqn:Hfind.
  2,3: unfold after, log_progress, mbind, today_str, gets, lift, mret;
       by rewrite Hfind.
  pose proof (Forall_lookup_1 _ _ _ _ H (find_goal_lookup _ _ _ _ Hfind))
    as (s & tv & target & Hs & Htv & Htarget & Hlt).
  destruct g as [| | | | |d]; try done.
  unfold total_progress in Hs. simpl in Hs, Htv.
  destruct (dict_get "daily_logs" d) as [l|] eqn:Hl; [|done].
  destruct (dict_get "total_target" d) as [tv'|] eqn:Htv'; [|done].
  injection Htv as ->.
  assert (Hlist : (exists logs, l = JList logs) \/
                  py_append l (JDict [("date", JStr (strftime (clock t)));
                                      ("progress", JNum a)])
                  = Raise AttributeError).
  { destruct l; simpl; eauto. }
  destruct Hlist as [[logs ->]|Hraise].
  - simpl in Hs.
    destruct (log_progress_run t n a i d logs s tv target
                (find_goal_named _ _ _ _ Hfind) Hl Hs Htv' Htarget)
      as [Htotal Hrun].
    unfold after. rewrite Hrun. simpl. unfold store_after_log.
    destruct (target <=? s + a)%float eqn:Hreach; simpl.
    + by apply Forall_delete.
    + apply Forall_insert; [done|].
      exists (s + a)%float, tv, target. repeat split; try done.
      * simpl. unfold with_log. by rewrite dict_get_set_ne, Htv'.
      * by apply below_target_after_add.
  - unfold after, log_progress, mbind, today_str, gets, lift, mret.
    rewrite Hfind. unfold append_to. simpl. rewrite Hl. simpl.
    by rewrite Hraise.
Qed.

Lemma perform_below (c : call) (t : tracker) :
  positive_targets_finite_amounts c ->
  Forall below_target (active_goals (data t)) ->
  Forall below_target (active_goals (data (perform c t))).
Proof.
  destruct c as [n total weekly u|n|n a|n r|n]; simpl; intros Hc H.
  - by apply add_goal_below.
  - by apply delete_goal_below.
  - by apply log_progress_below.
  - by apply log_missed_day_below.
  - unfold after. by rewrite get_weekly_progress_state.
Qed.

(** C2 (amended to positive targets and finite amounts). In every state
    reached from the empty store by the five operations, when every goal
    is added with a positive target and every amount logged is finite, the
    progress of every active goal sums to less than its target. *)
Theorem active_goals_below_target (t : tracker) :
  reachable positive_targets_finite_amounts t ->
  Forall below_target (active_goals (data t)).
Proof.
  induction 1 as [f today|c t _ IH Hc|d t _ IH].
  - constructor.
  - by apply perform_below.
  - exact IH.
Qed.

Lemma active_goals_below_target_witness :
  Forall below_target
    (active_goals
       (data (perform (LogProgress "run" 6)
                (perform (Add "run" 10 5 "km") (fresh NoFile sample_day))))).
Proof.
  apply (active_goals_below_target
           (perform (LogProgress "run" 6)
              (perform (Add "run" 10 5 "km") (fresh NoFile sample_day)))).
  apply reach_call; [apply reach_call; [apply reach_fresh|]|]; reflexivity.
Defined.

(** C2 as stated fails. A goal added with target 0 (a non-negative
    target) is active with no progress, and 0 is not below 0.  And a goal
    with target 10 stays active with a sum that is no number, hence not
    below 10, once an amount that is no number is logged, or the two
    infinite amounts one after the other. *)
Lemma active_invariant_counterexample :
  let t0 := fresh NoFile sample_day in
  let t := perform (Add "run" 0 5 "km") t0 in
  let u := perform (LogProgress "run" nan) (perform (Add "run" 10 5 "km") t0) in
  let v := perform (LogProgress "run" infinity)
             (perform (LogProgress "run" neg_infinity)
                (perform (Add "run" 10 5 "km") t0)) in
  (reachable nonneg_targets t /\
   exists g,
     active_goals (data t) = [g] /\
     total_progress g = Ok 0%float /\
     getitem g "total_target" = Ok (JNum 0) /\
     (0 <? 0)%float = false /\
     ~ below_target g) /\
  (reachable nonneg_targets u /\
   exists g,
     active_goals (data u) = [g] /\
     total_progress g = Ok nan /\
     getitem g "total_target" = Ok (JNum 10) /\
     (nan <? 10)%float = false) /\
  (reachable nonneg_targets v /\
   exists g,
     active_goals (data v) = [g] /\
     total_progress g = Ok nan /\
     getitem g "total_target" = Ok (JNum 10)).
Proof.
  repeat split.
  - apply reach_call; [apply reach_fresh|reflexivity].
  - eexists. repeat split.
    intros (s & tv & tg & Hs & Htv & Htg & Hlt).
    injection Hs as <-. injection Htv as <-. injection Htg as <-.
    discriminate Hlt.
  - repeat (apply reach_call; [|reflexivity]). apply reach_fresh.
  - eexists. repeat split.
  - repeat (apply reach_call; [|reflexivity]). apply reach_fresh.
  - eexists. repeat split.
Qed.

(* ===================================================================== *)
(** ** Dates written and read back *)
(* ===================================================================== *)

Lemma digit_val_digit_char n : digit_val (digit_char n) = Some (n mod 10).
Proof.
  unfold digit_val, digit_char.
  pose proof (Z.mod_pos_bound n 10 ltac:(lia)) as Hn.
  rewrite nat_ascii_embedding by lia.
  rewrite Nat2Z.inj_add, Z2Nat.id by lia. change (Z.of_nat 48) with 48.
  replace (48 <=? 48 + n mod 10) with true by (symmetry; apply Z.leb_le; lia).
  replace (48 + n mod 10 <=? 57) with true by (symmetry; apply Z.leb_le; lia).
  cbn [andb]. f_equal. lia.
Qed.

(** A property of the integers from [lo] on, checked one by one. *)
Lemma upto (P : Z -> Prop) (lo : Z) (n : nat) :
  (forall k : nat, (k < n)%nat -> P (lo + Z.of_nat k)) ->
  forall m, lo <= m < lo + Z.of_nat n -> P m.
Proof.
  intros H m Hm. replace m with (lo + Z.of_nat (Z.to_nat (m - lo))) by lia.
  apply H. lia.
Qed.

Lemma parse_month_pad2 m rest :
  1 <= m <= 12 ->
  parse_month (digit_char (m / 10) :: digit_char m :: "-"%char :: rest)
  = Some (m, rest).
Proof.
  intros Hm. revert rest.
  apply (upto (fun m => forall rest,
                 parse_month (digit_char (m / 10) :: digit_char m
                                :: "-"%char :: rest) = Some (m, rest))
              1 12); [|lia].
  intros k Hk rest.
  do 12 (destruct k as [|k]; [reflexivity|]). lia.
Qed.

Lemma parse_day_pad2 d :
  1 <= d <= 31 ->
  parse_day [digit_char (d / 10); digit_char d] = Some d.
Proof.
  intros Hd.
  apply (upto (fun d => parse_day [digit_char (d / 10); digit_char d]
                        = Some d) 1 31); [|lia].
  intros k Hk.
  do 31 (destruct k as [|k]; [reflexivity|]). lia.
Qed.

Lemma days_in_month_le y m : days_in_month y m <= 31.
Proof.
  unfold days_in_month.
  repeat match goal with |- context [if ?b then _ else _] => destruct b end;
    lia.
Qed.

(** The text [strftime] writes for a day is read back by [strptime] as
    that day. *)
Lemma strptime_strftime (d : date) :
  valid_date d -> strptime (JStr (strftime d)) = Ok d.
Proof.
  destruct d as [y m dd]. unfold valid_date.
  cbn [year month day]. intros (Hy & Hm & Hd).
  pose proof (days_in_month_le y m) as Hle.
  unfold strptime, strptime_str, strftime, pad4, pad2.
  cbv [year month day String.append list_ascii_of_string].
  rewrite !digit_val_digit_char.
  rewrite parse_month_pad2 by done. rewrite parse_day_pad2 by lia.
  replace (y / 1000 mod 10 * 1000 + y / 100 mod 10 * 100 +
           y / 10 mod 10 * 10 + y mod 10) with y.
  - replace (1 <=? y) with true by (symmetry; apply Z.leb_le; lia).
    replace (dd <=? days_in_month y m) with true
      by (symmetry; apply Z.leb_le; lia).
    reflexivity.
  - clear -Hy. Z.to_euclidean_division_equations. lia.
Qed.

(** Two days of one ISO calendar week bear one week number, so the query
    counts both or neither. *)
Lemma same_iso_week_number (d1 d2 : date) :
  same_iso_week d1 d2 = true -> iso_week d1 = iso_week d2.
Proof.
  unfold same_iso_week, iso_week, iso_year_week.
  destruct (isocalendar d1) as [[y1 w1] wd1].
  destruct (isocalendar d2) as [[y2 w2] wd2]. simpl.
  intros [_ H]%andb_prop. by apply Z.eqb_eq.
Qed.

(** The weeks of the specification's example: Monday 4 March 2024 and
    Sunday 10 March 2024 share a week, the Monday after starts another. *)
Example iso_week_boundaries :
  same_iso_week (mkDate 2024 3 4) (mkDate 2024 3 10) = true /\
  same_iso_week (mkDate 2024 3 10) (mkDate 2024 3 11) = false /\
  isocalendar (mkDate 2021 1 3) = (2020, 53, 7) /\
  isocalendar (mkDate 2024 12 30) = (2025, 1, 1).
Proof. repeat split. Qed.

(** Without a file the tracker starts on the empty document. *)
Example GoalTracker_no_file (today : date) :
  GoalTracker NoFile today = Some (fresh NoFile today).
Proof. reflexivity. Qed.

(* ===================================================================== *)
(** ** Stores built by the operations *)
(* ===================================================================== *)

Lemma py_remove_Forall (P : json -> Prop) i x l l' :
  py_remove i x l = Ok l' -> Forall P l -> Forall P l'.
Proof.
  revert i l'. induction l as [|e l IH]; intros i l'; simpl;
    [intros Hr; discriminate Hr|].
  intros Hr [He Hl]%Forall_cons. destruct i as [|i].
  - by injection Hr as <-.
  - destruct (py_eq e x); [by injection Hr as <-|].
    destruct (py_remove i x l) as [r|] eqn:E; [|done].
    injection Hr as <-. constructor; [done|]. by eapply IH.
Qed.

Lemma has_name_dict_set k v d :
  k <> "name" -> has_name (JDict d) -> has_name (JDict (dict_set k v d)).
Proof.
  unfold has_name. simpl. intros Hk. by rewrite dict_get_set_ne.
Qed.

Lemma append_to_has_name goal key entry goal' :
  key <> "name" -> append_to goal key entry = Ok goal' ->
  has_name goal -> has_name goal'.
Proof.
  unfold append_to. intros Hk H Hn.
  destruct (getitem goal key) as [l|]; [|done]. simpl in H.
  destruct (py_append l entry) as [l'|]; [|done]. simpl in H.
  destruct goal as [| | | | |d]; try done. injection H as <-.
  by apply has_name_dict_set.
Qed.

Lemma complete_goal_has_name (t : tracker) (i : nat) (goal : json) :
  has_name goal ->
  Forall has_name (active_goals (data t)) ->
  Forall has_name (active_goals (data (after (complete_goal i goal) t))).
Proof.
  intros Hg H.
  unfold after, complete_goal, mbind, today_str, gets, lift, set_goal,
    set_active, set_completed, save_data.
  destruct goal as [| | | | |d]; try done. simpl.
  assert (H' : Forall has_name
                 (<[i := JDict (dict_set "completion_date"
                                  (JStr (strftime (clock t))) d)]>
                    (active_goals (data t)))).
  { apply Forall_insert; [done|]. by apply has_name_dict_set. }
  destruct (py_remove i _ _) as [r|] eqn:E; simpl; [|done].
  by eapply py_remove_Forall.
Qed.

Lemma log_progress_has_name (t : tracker) (n : string) (a : float) :
  Forall has_name (active_goals (data t)) ->
  Forall has_name (active_goals (data (after (log_progress n a) t))).
Proof.
  intros H.
  unfold after, log_progress.
  cbv [mbind today_str gets lift set_goal set_active save_data mret].
  destruct (find_goal n (active_goals (data t))) as [[[i g]|]|] eqn:Hfind;
    [|exact H|exact H].
  pose proof (Forall_lookup_1 _ _ _ _ H (find_goal_lookup _ _ _ _ Hfind)) as Hg.
  destruct (append_to g "daily_logs" _) as [g'|] eqn:Happ; [|exact H].
  assert (Hg' : has_name g')
    by (by apply (append_to_has_name g "daily_logs" _ g' ltac:(done) Happ)).
  cbn [data active_goals completed_goals file writes clock fst snd].
  set (t1 := mkTracker (mkStore (<[i := g']> (active_goals (data t)))
                                (completed_goals (data t)))
                       (file t) (writes t) (clock t)).
  assert (H1 : Forall has_name (active_goals (data t1)))
    by (by apply Forall_insert).
  destruct (total_progress g') as [total|]; [|exact H1].
  destruct (getitem g' "total_target") as [target|]; [|exact H1].
  destruct (py_ge total target) as [[]|]; [| |exact H1].
  - pose proof (complete_goal_has_name t1 i g' Hg' H1) as H2.
    unfold after in H2. by destruct (complete_goal i g' t1) as [[[]|] t2].
  - exact H1.
Qed.

Lemma log_missed_day_has_name (t : tracker) (n r : string) :
  Forall has_name (active_goals (data t)) ->
  Forall has_name (active_goals (data (after (log_missed_day n r) t))).
Proof.
  intros H. unfold after, log_missed_day, mbind, today_str, gets, lift, mret.
  destruct (find_goal n (active_goals (data t))) as [[[i g]|]|] eqn:Hfind;
    [|done|done].
  pose proof (Forall_lookup_1 _ _ _ _ H (find_goal_lookup _ _ _ _ Hfind)) as Hg.
  destruct (append_to g "missed_days" _) as [g'|] eqn:Happ; [|done].
  assert (Hg' : has_name g')
    by (by apply (append_to_has_name g "missed_days" _ g' ltac:(done) Happ)).
  simpl. by apply Forall_insert.
Qed.

(** Whatever is called, on whatever arguments, every active goal of a
    store built from the empty store by the operations has a name: the
    stores the operations build are stores of the data model. *)
Lemma reachable_has_name (t : tracker) :
  reachable (fun _ => True) t -> Forall has_name (active_goals (data t)).
Proof.
  induction 1 as [f today|c t _ IH _|d t _ IH]; [constructor| |exact IH].
  destruct c as [n total weekly u|n|n a|n r|n]; simpl.
  - apply Forall_app_2; [done|]. apply Forall_singleton. by eexists.
  - unfold after, delete_goal, mbind, gets, lift.
    destruct (keep_others n (active_goals (data t))) as [kept|] eqn:E;
      [|done].
    simpl. by eapply keep_others_Forall.
  - by apply log_progress_has_name.
  - by apply log_missed_day_has_name.
  - unfold after. by rewrite get_weekly_progress_state.
Qed.

(* ===================================================================== *)
(** ** What holds all along a session *)
(* ===================================================================== *)

Lemma session_goal_has_name g : session_goal g -> has_name g.
Proof. intros (n & total & weekly & u & logs & -> & _). by eexists. Qed.

Lemma session_logs_sum logs acc :
  Forall session_log logs -> exists s, sum_progress_from acc logs = Ok s.
Proof.
  intros H. revert acc.
  induction H as [|l logs (d & a & _ & ->) _ IH]; intros acc; simpl; eauto.
Qed.

Lemma session_logs_weekly_sum w logs acc :
  Forall session_log logs -> exists s, weekly_sum_from w acc logs = Ok s.
Proof.
  intros H. revert acc.
  induction H as [|l logs (d & a & Hd & ->) _ IH]; intros acc; [simpl; eauto|].
  cbn [weekly_sum_from getitem dict_get String.eqb Ascii.eqb Bool.eqb rbind].
  rewrite (strptime_strftime d Hd). cbn [rbind].
  destruct (iso_week d =? w); cbn [as_number rbind]; apply IH.
Qed.

(** The lookup never raises on goals that all have a name, and hits when
    one of them bears the name. *)
Lemma find_goal_total n goals :
  Forall has_name goals ->
  (existsb (is_named n) goals = true /\
   exists i g, find_goal n goals = Ok (Some (i, g))) \/
  (existsb (is_named n) goals = false /\ find_goal n goals = Ok None).
Proof.
  induction 1 as [|g goals [v Hv] _ IH]; [by right|].
  cbn [existsb find_goal]. rewrite Hv. cbn [rbind].
  rewrite (is_named_py_eq n g v Hv).
  destruct (is_named n g); [left; eauto|].
  destruct IH as [(-> & i & g' & ->)|(-> & ->)]; [left|right]; eauto.
Qed.

Lemma session_add (t : tracker) (n u : string) (total weekly : float) :
  session_inv t -> session_inv (after (add_goal n total weekly u) t).
Proof.
  intros (Ha & Hc & Hd & _). split_inv; try done.
  - simpl. apply Forall_app_2; [done|]. apply Forall_singleton.
    exists n, total, weekly, u, []. by split.
  - by right.
Qed.

Lemma session_delete (t : tracker) (n : string) :
  session_inv t ->
  session_inv (after (delete_goal n) t) /\ fst (delete_goal n t) = Ok tt.
Proof.
  intros (Ha & Hc & Hd & _).
  assert (Hn : Forall has_name (active_goals (data t)))
    by (eapply Forall_impl; [exact Ha|apply session_goal_has_name]).
  unfold after, delete_goal, mbind, gets, lift, set_active, save_data.
  pose proof (keep_others_filter n _ Hn) as Hk. rewrite Hk. simpl.
  split; [|done]. split_inv; try done.
  - by eapply keep_others_Forall.
  - by right.
Qed.

Lemma session_log_missed_day (t : tracker) (n r : string) :
  session_inv t ->
  log_missed_day n r t =
    (if existsb (is_named n) (active_goals (data t))
     then Raise (KeyError "missed_days") else Ok false, t).
Proof.
  intros (Ha & _).
  assert (Hn : Forall has_name (active_goals (data t)))
    by (eapply Forall_impl; [exact Ha|apply session_goal_has_name]).
  unfold log_missed_day, mbind, today_str, gets, lift, mret.
  destruct (find_goal_total n _ Hn) as [(-> & i & g & Hf)|(-> & ->)]; [|done].
  rewrite Hf.
  destruct (Forall_lookup_1 _ _ _ _ Ha (find_goal_lookup _ _ _ _ Hf))
    as (n' & total & weekly & u & logs & -> & _).
  reflexivity.
Qed.

Lemma session_log_progress (t : tracker) (n : string) (a : float) :
  session_inv t ->
  session_inv (after (log_progress n a) t) /\
  fst (log_progress n a t)
    = Ok (existsb (is_named n) (active_goals (data t))).
Proof.
  intros (Ha & Hc & Hd & Hs).
  assert (Hn : Forall has_name (active_goals (data t)))
    by (eapply Forall_impl; [exact Ha|apply session_goal_has_name]).
  destruct (find_goal_total n _ Hn) as [(-> & i & g & Hf)|(-> & Hf)].
  - destruct (Forall_lookup_1 _ _ _ _ Ha (find_goal_lookup _ _ _ _ Hf))
      as (n' & total & weekly & u & logs & -> & Hlogs).
    destruct (session_logs_sum logs 0%float Hlogs) as [s Hsum].
    destruct (log_progress_run t n a i _ logs s (JNum total) total
                (find_goal_named _ _ _ _ Hf) eq_refl Hsum eq_refl eq_refl)
      as [_ Hrun].
    unfold after. rewrite Hrun. split; [|done].
    set (logs' := logs ++ [JDict [("date", JStr (strftime (clock t)));
                                  ("progress", JNum a)]]).
    assert (Hlogs' : Forall session_log logs').
    { apply Forall_app_2; [done|]. apply Forall_singleton.
      by exists (clock t), a. }
    unfold store_after_log.
    destruct (total <=? s + a)%float eqn:Hreach; split_inv; simpl;
      try done; try (by right).
    + by apply Forall_delete.
    + apply Forall_app_2; [done|]. apply Forall_singleton.
      exists n', total, weekly, u, logs', (clock t), (s + a)%float.
      split; [reflexivity|]. split; [done|]. split; [done|]. split; [|done].
      unfold logs'. by rewrite sum_progress_from_app, Hsum.
    + apply Forall_insert; [done|].
      exists n', total, weekly, u, logs'. by split.
  - unfold after, log_progress, mbind, today_str, gets, lift, mret.
    by rewrite Hf.
Qed.

Lemma session_invariant (t : tracker) : in_session t -> session_inv t.
Proof.
  induction 1 as [f today Hd|c t _ IH|d t Hd _ IH].
  - split_inv; [constructor|constructor|done|by left].
  - destruct c as [n total weekly u|n|n a|n r|n]; simpl.
    + by apply session_add.
    + by apply session_delete.
    + by apply session_log_progress.
    + unfold after. by rewrite session_log_missed_day.
    + unfold after. by rewrite get_weekly_progress_state.
  - destruct IH as (Ha & Hc & _ & Hs). by split_inv.
Qed.

(** X2. Every active goal of a session has what [log_progress] and
    [get_weekly_progress] read on it: a string under [name], a float under
    [total_target], and under [daily_logs] a list of entries that each
    carry a date [strptime] reads and a float progress; it has neither
    [missed_days] nor [completion_date]. *)
Theorem session_active_goals_readable (t : tracker) :
  in_session t ->
  Forall (fun g => exists n target logs,
            getitem g "name" = Ok (JStr n) /\
            getitem g "total_target" = Ok (JNum target) /\
            getitem g "daily_logs" = Ok (JList logs) /\
            Forall (fun l => exists dv d a,
                      getitem l "date" = Ok dv /\ strptime dv = Ok d /\
                      getitem l "progress" = Ok (JNum a)) logs /\
            getitem g "missed_days" = Raise (KeyError "missed_days") /\
            getitem g "completion_date" = Raise (KeyError "completion_date"))
         (active_goals (data t)).
Proof.
  intros H. destruct (session_invariant t H) as (Ha & _).
  eapply Forall_impl; [exact Ha|].
  intros g (n & total & weekly & u & logs & -> & Hlogs).
  exists n, total, logs. repeat split.
  eapply Forall_impl; [exact Hlogs|].
  intros l (d & a & Hd & ->).
  exists (JStr (strftime d)), d, a. repeat split.
  exact (strptime_strftime d Hd).
Qed.

Lemma session_active_goals_readable_witness :
  Forall (fun g => exists n target logs,
            getitem g "name" = Ok (JStr n) /\
            getitem g "total_target" = Ok (JNum target) /\
            getitem g "daily_logs" = Ok (JList logs) /\
            Forall (fun l => exists dv d a,
                      getitem l "date" = Ok dv /\ strptime dv = Ok d /\
                      getitem l "progress" = Ok (JNum a)) logs /\
            getitem g "missed_days" = Raise (KeyError "missed_days") /\
            getitem g "completion_date" = Raise (KeyError "completion_date"))
         (active_goals
            (data (perform (LogProgress "run" 6)
                     (perform (Add "run" 10 5 "km")
                        (fresh NoFile sample_day))))).
Proof.
  apply (session_active_goals_readable
           (perform (LogProgress "run" 6)
              (perform (Add "run" 10 5 "km") (fresh NoFile sample_day)))).
  session_tac.
Defined.

(** X3. In a session [log_missed_day] never succeeds: no goal the
    session holds has a [missed_days] list, so the call raises
    [KeyError] when an active goal bears the name and returns [False]
    when none does; either way the tracker is left as it was. *)
Theorem session_log_missed_day_never_succeeds (t : tracker) (n r : string) :
  in_session t ->
  log_missed_day n r t =
    (if existsb (is_named n) (active_goals (data t))
     then Raise (KeyError "missed_days") else Ok false, t).
Proof. intros H. apply session_log_missed_day, session_invariant, H. Qed.

Lemma session_log_missed_day_never_succeeds_witness :
  let t := perform (LogProgress "run" 6)
             (perform (Add "run" 10 5 "km") (fresh NoFile sample_day)) in
  log_missed_day "run" "flu" t = (Raise (KeyError "missed_days"), t).
Proof.
  apply (session_log_missed_day_never_succeeds
           (perform (LogProgress "run" 6)
              (perform (Add "run" 10 5 "km") (fresh NoFile sample_day)))
           "run" "flu").
  session_tac.
Defined.

(** X4. Every completed goal of a session carries the day it was
    completed and a progress that sums to its target or more. *)
Theorem session_completed_goals_reached_target (t : tracker) :
  in_session t ->
  Forall (fun g => exists s target day,
            total_progress g = Ok s /\
            getitem g "total_target" = Ok (JNum target) /\
            (target <=? s)%float = true /\
            getitem g "completion_date" = Ok (JStr day))
         (completed_goals (data t)).
Proof.
  intros H. destruct (session_invariant t H) as (_ & Hc & _).
  eapply Forall_impl; [exact Hc|].
  intros g (n & total & weekly & u & logs & d & s & -> & _ & _ & Hs & Hr).
  exists s, total, (strftime d). by repeat split.
Qed.

Lemma session_completed_goals_reached_target_witness :
  Forall (fun g => exists s target day,
            total_progress g = Ok s /\
            getitem g "total_target" = Ok (JNum target) /\
            (target <=? s)%float = true /\
            getitem g "completion_date" = Ok (JStr day))
         (completed_goals
            (data (perform (LogProgress "run" 5)
                     (perform (LogProgress "run" 6)
                        (perform (Add "run" 10 5 "km")
                           (fresh NoFile sample_day)))))).
Proof.
  apply (session_completed_goals_reached_target
           (perform (LogProgress "run" 5)
              (perform (LogProgress "run" 6)
                 (perform (Add "run" 10 5 "km")
                    (fresh NoFile sample_day))))).
  session_tac.
Defined.

Lemma session_weekly_progress (t : tracker) (n : string) :
  session_inv t -> exists x, get_weekly_progress n t = (Ok x, t).
Proof.
  intros (Ha & _).
  assert (Hn : Forall has_name (active_goals (data t)))
    by (eapply Forall_impl; [exact Ha|apply session_goal_has_name]).
  unfold get_weekly_progress, mbind, gets, lift, mret.
  destruct (find_goal_total n _ Hn) as [(_ & i & g & Hf)|(_ & ->)];
    [|by eexists].
  rewrite Hf.
  destruct (Forall_lookup_1 _ _ _ _ Ha (find_goal_lookup _ _ _ _ Hf))
    as (n' & total & weekly & u & logs & -> & Hlogs).
  destruct (session_logs_weekly_sum (iso_week (clock t)) logs 0%float Hlogs)
    as [x Hx].
  exists x. simpl. by rewrite Hx.
Qed.

(** X5. In a session [get_weekly_progress] never raises, whatever the
    name: every date it parses was written by [log_progress] and every
    progress it adds is a float; it returns a number and leaves the
    tracker as it was. *)
Theorem session_weekly_progress_returns (t : tracker) (n : string) :
  in_session t -> exists x, get_weekly_progress n t = (Ok x, t).
Proof. intros H. apply session_weekly_progress, session_invariant, H. Qed.

Lemma session_weekly_progress_returns_witness :
  let t := perform (LogProgress "run" 6)
             (perform (Add "run" 10 5 "km") (fresh NoFile sample_day)) in
  exists x, get_weekly_progress "run" t = (Ok x, t).
Proof.
  apply (session_weekly_progress_returns
           (perform (LogProgress "run" 6)
              (perform (Add "run" 10 5 "km") (fresh NoFile sample_day)))
           "run").
  session_tac.
Defined.

Lemma session_goals_reload goals :
  Forall session_goal goals ->
  normalise_goals goals = Ok (map reloaded goals).
Proof.
  induction 1 as [|g goals (n & total & weekly & u & logs & -> & _) _ IH];
    [done|].
  cbn [normalise_goals map]. rewrite IH. reflexivity.
Qed.

Lemma reloaded_is_named n g :
  session_goal g -> is_named n (reloaded g) = is_named n g.
Proof. by intros (n' & total & weekly & u & logs & -> & _). Qed.

(** X6. A restart heals the session's goals: the file a session saved
    loads without error, the completed goals come back as they were and
    every active goal comes back with an empty [missed_days] list added,
    after which [log_missed_day] returns [True] for every name an active
    goal bears. *)
Theorem restart_enables_missed_days (t : tracker) :
  in_session t ->
  exists t',
    GoalTracker (file (after save_data t)) (clock t) = Some t' /\
    active_goals (data t') = map reloaded (active_goals (data t)) /\
    completed_goals (data t') = completed_goals (data t) /\
    forall n r,
      existsb (is_named n) (active_goals (data t)) = true ->
      fst (log_missed_day n r t') = Ok true.
Proof.
  intros H. destruct (session_invariant t H) as (Ha & _).
  unfold GoalTracker, after, save_data. cbn [snd file data].
  unfold load_file, doc_of_store, normalise_doc.
  cbn [migrate_legacy py_contains dict_mem dict_get String.eqb Ascii.eqb
       Bool.eqb rbind setdefault dict_setdefault getitem py_iter].
  rewrite (session_goals_reload _ Ha).
  cbn [rbind setitem dict_set String.eqb Ascii.eqb Bool.eqb store_of_doc
       dict_get].
  eexists. split; [reflexivity|]. cbn [data active_goals completed_goals].
  split; [done|]. split; [done|]. intros n r Hn.
  set (t' := mkTracker _ _ _ _).
  assert (Ha' : Forall has_name (map reloaded (active_goals (data t)))).
  { apply Forall_map. eapply Forall_impl; [exact Ha|].
    intros g (n' & total & weekly & u & logs & -> & _). by eexists. }
  assert (Hn' : existsb (is_named n) (map reloaded (active_goals (data t)))
                = true).
  { rewrite <- Hn. clear Hn Ha'. induction Ha as [|g goals Hg _ IH]; [done|].
    cbn [map existsb]. by rewrite IH, (reloaded_is_named n g Hg). }
  destruct (find_goal_total n _ Ha') as [(_ & i & g & Hf)|(Hno & _)];
    [|congruence].
  pose proof (find_goal_lookup _ _ _ _ Hf) as Hi.
  rewrite list_lookup_fmap in Hi.
  destruct (active_goals (data t) !! i) as [g0|] eqn:Hg0; [|done].
  injection Hi as <-.
  destruct (Forall_lookup_1 _ _ _ _ Ha Hg0)
    as (n' & total & weekly & u & logs & -> & _).
  unfold log_missed_day, mbind, today_str, gets, lift, mret.
  cbn [data active_goals t']. rewrite Hf. reflexivity.
Qed.

Lemma restart_enables_missed_days_witness :
  let t := perform (Add "run" 10 5 "km") (fresh NoFile sample_day) in
  exists t',
    GoalTracker (file (after save_data t)) (clock t) = Some t' /\
    active_goals (data t') = map reloaded (active_goals (data t)) /\
    completed_goals (data t') = completed_goals (data t) /\
    forall n r,
      existsb (is_named n) (active_goals (data t)) = true ->
      fst (log_missed_day n r t') = Ok true.
Proof.
  apply (restart_enables_missed_days
           (perform (Add "run" 10 5 "km") (fresh NoFile sample_day))).
  session_tac.
Defined.

(* ===================================================================== *)
(** ** What a call can do to the tracker *)
(* ===================================================================== *)

Lemma py_remove_in_range i x l :
  (i < length l)%nat -> exists l', py_remove i x l = Ok l'.
Proof.
  revert i. induction l as [|e l IH]; intros i Hi; simpl in *; [lia|].
  destruct i as [|i]; [eauto|].
  destruct (py_eq e x); [eauto|].
  destruct (IH i ltac:(lia)) as [l' ->]. simpl. eauto.
Qed.

(** The ways [log_progress] can end: it raises with the file untouched;
    it returns [False] with the tracker untouched; or it returns [True]
    with the document saved and at most one goal more completed. *)
Lemma log_progress_cases (t : tracker) (n : string) (a : float) :
  (exists e t',
     log_progress n a t = (Raise e, t') /\
     file t' = file t /\ writes t' = writes t /\
     completed_goals (data t') = completed_goals (data t)) \/
  log_progress n a t = (Ok false, t) \/
  (exists t',
     log_progress n a t = (Ok true, t') /\
     file t' = Doc (doc_of_store (data t')) /\
     (completed_goals (data t') = completed_goals (data t) \/
      exists g, completed_goals (data t') = completed_goals (data t) ++ [g])).
Proof.
  unfold log_progress.
  cbv [mbind today_str gets lift set_goal set_active save_data mret].
  destruct (find_goal n (active_goals (data t))) as [[[i g]|]|] eqn:Hfind;
    [|by right; left|by left; eexists _, _].
  pose proof (lookup_lt_Some _ _ _ (find_goal_lookup _ _ _ _ Hfind)) as Hi.
  destruct (append_to g "daily_logs" _) as [g'|] eqn:Happ;
    [|by left; eexists _, _].
  cbn [data active_goals completed_goals file writes clock].
  destruct (total_progress g') as [total|]; [|by left; eexists _, _].
  destruct (getitem g' "total_target") as [target|]; [|by left; eexists _, _].
  destruct (py_ge total target) as [[]|]; [| |by left; eexists _, _].
  - unfold complete_goal.
    cbv [mbind today_str gets lift set_goal set_active set_completed
         save_data mret].
    cbn [data active_goals completed_goals file writes clock].
    destruct (setitem g' "completion_date" _) as [g''|];
      [|by left; eexists _, _].
    destruct (py_remove_in_range i g''
                (<[i := g'']> (<[i := g']> (active_goals (data t)))))
      as [l' ->]; [by rewrite !length_insert|].
    right; right. eexists. split; [reflexivity|]. split; [done|].
    right. by eexists.
  - right; right. eexists. split; [reflexivity|]. split; [done|]. by left.
Qed.

(** X7. Completed goals are never changed, reordered or removed: after
    any call, returned or raised, on any tracker, the completed goals are
    those before the call, followed by at most one goal more. *)
Theorem completed_goals_append_only (c : call) (t : tracker) :
  exists extra,
    completed_goals (data (perform c t)) = completed_goals (data t) ++ extra /\
    (length extra <= 1)%nat.
Proof.
  assert (Hsame : forall t', completed_goals (data t')
                             = completed_goals (data t) ->
            exists extra,
              completed_goals (data t') = completed_goals (data t) ++ extra /\
              (length extra <= 1)%nat).
  { intros t' ->. exists []. rewrite app_nil_r. split; [done|simpl; lia]. }
  destruct c as [n total weekly u|n|n a|n r|n]; simpl.
  - by apply Hsame.
  - apply Hsame. unfold after, delete_goal, mbind, gets, lift.
    destruct (keep_others n (active_goals (data t))); reflexivity.
  - unfold after.
    destruct (log_progress_cases t n a)
      as [(e & t' & -> & _ & _ & Hc)|[->|(t' & -> & _ & [Hc|[g Hc]])]];
      simpl; try by apply Hsame.
    exists [g]. split; [done|simpl; lia].
  - apply Hsame. unfold after, log_missed_day, mbind, today_str, gets, lift,
      mret.
    destruct (find_goal n (active_goals (data t))) as [[[i g]|]|];
      try reflexivity.
    destruct (append_to g "missed_days" _); reflexivity.
  - apply Hsame. unfold after. by rewrite get_weekly_progress_state.
Qed.

(** X8. A call that returns has saved what it changed: on any tracker,
    after a call that did not raise, either the whole tracker is as it
    was or the file holds exactly the document in memory. *)
Theorem returned_call_saved (c : call) (t : tracker) :
  raised c t = None ->
  perform c t = t \/
  file (perform c t) = Doc (doc_of_store (data (perform c t))).
Proof.
  destruct c as [n total weekly u|n|n a|n r|n]; simpl.
  - by right.
  - unfold after, delete_goal, mbind, gets, lift.
    destruct (keep_others n (active_goals (data t))); simpl; [by right|done].
  - unfold after.
    destruct (log_progress_cases t n a)
      as [(e & t' & -> & ? & ? & _)|[->|(t' & -> & ? & _)]]; simpl; auto;
      done.
  - unfold after, log_missed_day, mbind, today_str, gets, lift, mret.
    destruct (find_goal n (active_goals (data t))) as [[[i g]|]|]; simpl;
      auto; try done.
    destruct (append_to g "missed_days" _); simpl; auto; done.
  - unfold after. rewrite get_weekly_progress_state. auto.
Qed.

Lemma returned_call_saved_witness :
  let t := perform (Add "run" 10 5 "km") (fresh NoFile sample_day) in
  perform (LogProgress "run" 6) t = t \/
  file (perform (LogProgress "run" 6) t)
    = Doc (doc_of_store (data (perform (LogProgress "run" 6) t))).
Proof.
  apply (returned_call_saved (LogProgress "run" 6)
           (perform (Add "run" 10 5 "km") (fresh NoFile sample_day))).
  reflexivity.
Defined.

(* ===================================================================== *)
(** ** Adding and deleting *)
(* ===================================================================== *)

Lemma filter_not_named n goals :
  Forall has_name goals ->
  no_goal_named n (List.filter (fun g => negb (is_named n g)) goals).
Proof.
  induction 1 as [|g goals [v Hv] _ IH]; simpl; [constructor|].
  destruct (is_named n g) eqn:E; simpl; [done|].
  constructor; [|done]. exists v. split; [done|]. intros ->.
  unfold is_named in E. rewrite Hv in E. by rewrite String.eqb_refl in E.
Qed.

Lemma delete_goal_run (t : tracker) (n : string) :
  Forall has_name (active_goals (data t)) ->
  delete_goal n t =
    (Ok tt,
     let st := mkStore (List.filter (fun g => negb (is_named n g))
                          (active_goals (data t)))
                       (completed_goals (data t)) in
     mkTracker st (Doc (doc_of_store st)) (S (writes t)) (clock t)).
Proof.
  intros H. unfold delete_goal, mbind, gets, lift, set_active, save_data.
  by rewrite (keep_others_filter n _ H).
Qed.

(** X9. Once [delete_goal] has run on a store whose active goals all
    have a name, the name is unknown: no active goal bears it,
    [log_progress] returns [False] and [get_weekly_progress] returns 0,
    both leaving the tracker as the deletion left it. *)
Theorem delete_goal_then_unknown (t : tracker) (n : string) (a : float) :
  Forall has_name (active_goals (data t)) ->
  let t' := after (delete_goal n) t in
  no_goal_named n (active_goals (data t')) /\
  log_progress n a t' = (Ok false, t') /\
  get_weekly_progress n t' = (Ok 0%float, t').
Proof.
  intros H t'.
  assert (Hno : no_goal_named n (active_goals (data t'))).
  { subst t'. unfold after. rewrite (delete_goal_run t n H).
    by apply filter_not_named. }
  split; [done|]. apply find_goal_none in Hno. split.
  - unfold log_progress, mbind, today_str, gets, lift, mret. by rewrite Hno.
  - unfold get_weekly_progress, mbind, gets, lift, mret. by rewrite Hno.
Qed.

Lemma delete_goal_then_unknown_witness :
  let t' := after (delete_goal "run") sample_tracker in
  no_goal_named "run" (active_goals (data t')) /\
  log_progress "run" 3 t' = (Ok false, t') /\
  get_weekly_progress "run" t' = (Ok 0%float, t').
Proof.
  apply (delete_goal_then_unknown sample_tracker "run" 3).
  repeat constructor. by eexists.
Defined.

(** X10. Deleting twice is deleting once: on a store whose active goals
    all have a name, a second [delete_goal] of the same name returns and
    leaves both collections as the first left them. *)
Theorem delete_goal_idempotent (t : tracker) (n : string) :
  Forall has_name (active_goals (data t)) ->
  let t' := after (delete_goal n) t in
  fst (delete_goal n t') = Ok tt /\
  data (after (delete_goal n) t') = data t'.
Proof.
  intros H t'.
  assert (Ht' : t' = snd (delete_goal n t)) by done.
  rewrite (delete_goal_run t n H) in Ht'. simpl in Ht'.
  assert (Hno : no_goal_named n (active_goals (data t')))
    by (rewrite Ht'; by apply filter_not_named).
  unfold after.
  rewrite (delete_goal_run t' n (no_goal_named_has_name n _ Hno)). simpl.
  split; [done|]. rewrite (filter_no_goal_named n _ Hno). by destruct (data t').
Qed.

Lemma delete_goal_idempotent_witness :
  let t' := after (delete_goal "run") sample_tracker in
  fst (delete_goal "run" t') = Ok tt /\
  data (after (delete_goal "run") t') = data t'.
Proof.
  apply (delete_goal_idempotent sample_tracker "run").
  repeat constructor. by eexists.
Defined.

(** X11. Adding a goal under a name no active goal bears and deleting
    that name gives both collections back as they were. *)
Theorem add_then_delete_restores (t : tracker) (n u : string)
    (total weekly : float) :
  no_goal_named n (active_goals (data t)) ->
  let t' := after (delete_goal n) (after (add_goal n total weekly u) t) in
  fst (delete_goal n (after (add_goal n total weekly u) t)) = Ok tt /\
  data t' = data t.
Proof.
  intros Hno t'.
  assert (Hn : Forall has_name
                 (active_goals (data (after (add_goal n total weekly u) t)))).
  { simpl. apply Forall_app_2; [by eapply no_goal_named_has_name|].
    apply Forall_singleton. by eexists. }
  subst t'. unfold after in Hn |- *. rewrite (delete_goal_run _ n Hn).
  split; [done|]. simpl. rewrite List.filter_app.
  rewrite (filter_no_goal_named n _ Hno). simpl.
  unfold is_named. simpl. rewrite String.eqb_refl. simpl.
  rewrite app_nil_r. by destruct (data t).
Qed.

Lemma add_then_delete_restores_witness :
  let t' := after (delete_goal "swim")
              (after (add_goal "swim" 20 2 "km") sample_tracker) in
  fst (delete_goal "swim" (after (add_goal "swim" 20 2 "km") sample_tracker))
    = Ok tt /\
  data t' = data sample_tracker.
Proof.
  apply (add_then_delete_restores sample_tracker "swim" "km" 20 2).
  repeat constructor. exists (JStr "run"). split; [reflexivity|discriminate].
Defined.

(** X12. A goal added under a name an active goal already bears is out
    of reach: the lookup of [log_progress], [log_missed_day] and
    [get_weekly_progress] still stops at the older goal, at its old
    place. *)
Theorem add_goal_under_used_name (t : tracker) (n u : string)
    (total weekly : float) (i : nat) (g : json) :
  first_named n (active_goals (data t)) i g ->
  let t' := after (add_goal n total weekly u) t in
  length (active_goals (data t')) = S (length (active_goals (data t))) /\
  first_named n (active_goals (data t')) i g /\
  find_goal n (active_goals (data t')) = Ok (Some (i, g)).
Proof.
  intros (Hi & Hg & Hno) t'.
  assert (Hfirst : first_named n (active_goals (data t')) i g).
  { subst t'. simpl. repeat split; try done.
    - by apply lookup_app_l_Some.
    - rewrite take_app_le; [done|]. apply lookup_lt_Some in Hi. lia. }
  repeat split; try apply Hfirst.
  - subst t'. simpl. rewrite length_app. simpl. lia.
  - by apply find_goal_first.
Qed.

Lemma add_goal_under_used_name_witness :
  let t' := after (add_goal "run" 42 7 "km") sample_tracker in
  length (active_goals (data t'))
    = S (length (active_goals (data sample_tracker))) /\
  first_named "run" (active_goals (data t')) 0 sample_goal /\
  find_goal "run" (active_goals (data t')) = Ok (Some (0%nat, sample_goal)).
Proof.
  apply (add_goal_under_used_name sample_tracker "run" "km" 42 7 0 sample_goal).
  repeat split. constructor.
Defined.

(* ===================================================================== *)
(** ** Logging and asking *)
(* ===================================================================== *)

Lemma weekly_sum_from_app w acc logs e :
  weekly_sum_from w acc (logs ++ [e]) =
  (do s <- weekly_sum_from w acc logs; weekly_sum_from w s [e])%res.
Proof.
  revert acc. induction logs as [|l logs IH]; intros acc; [done|].
  cbn [app weekly_sum_from].
  destruct (getitem l "date") as [dv|]; [|done]. cbn [rbind].
  destruct (strptime dv) as [d|]; [|done]. cbn [rbind].
  destruct (iso_week d =? w); [|apply IH].
  destruct (getitem l "progress") as [p|]; [|done]. cbn [rbind].
  destruct (as_number p); [|done]. cbn [rbind]. apply IH.
Qed.

Lemma first_named_insert n goals i g g' :
  first_named n goals i g -> named n g' ->
  first_named n (<[i := g']> goals) i g'.
Proof.
  intros (Hi & _ & Hno) Hg'. repeat split; try done.
  - apply list_lookup_insert_eq. by eapply lookup_lt_Some.
  - by rewrite take_insert_ge.
Qed.

(** X14. An error after the append is not undone: on the first goal of
    the name, when it has its list of logs but no [total_target], the
    call raises [KeyError] after the entry went into the goal in memory;
    the file and the count of writes are what they were, so memory and
    file differ from then on. *)
Theorem log_progress_without_target (t : tracker) (n : string) (a : float)
    (i : nat) (d : list (string * json)) (logs : list json) (s : float) :
  first_named n (active_goals (data t)) i (JDict d) ->
  dict_get "daily_logs" d = Some (JList logs) ->
  sum_progress_from 0%float logs = Ok s ->
  dict_get "total_target" d = None ->
  log_progress n a t =
    (Raise (KeyError "total_target"),
     mkTracker
       (mkStore (<[i := JDict (with_log (strftime (clock t)) a d logs)]>
                   (active_goals (data t)))
                (completed_goals (data t)))
       (file t) (writes t) (clock t)).
Proof.
  intros Hfirst Hlogs Hsum Htv.
  pose proof (find_goal_first _ _ _ _ Hfirst) as Hfind.
  unfold log_progress.
  cbv [mbind today_str gets lift set_goal set_active save_data mret].
  rewrite Hfind. unfold append_to.
  change (getitem (JDict d) "daily_logs") with
    (match dict_get "daily_logs" d with
     | Some x => Ok x | None => Raise (KeyError "daily_logs") end).
  rewrite Hlogs. cbn [rbind py_append setitem].
  fold (with_log (strftime (clock t)) a d logs).
  unfold total_progress. cbn [getitem].
  unfold with_log at 1. rewrite dict_get_set_eq. cbn [rbind py_iter].
  rewrite sum_progress_from_app, Hsum.
  cbn [rbind getitem dict_get String.eqb Ascii.eqb Bool.eqb as_number].
  unfold with_log at 1. rewrite dict_get_set_ne by done. by rewrite Htv.
Qed.

Lemma log_progress_without_target_witness :
  let t := mkTracker
             (mkStore [JDict [("name", JStr "run"); ("daily_logs", JList [])]]
                      [])
             NoFile 0%nat sample_day in
  log_progress "run" 6 t =
    (Raise (KeyError "total_target"),
     mkTracker
       (mkStore
          [JDict [("name", JStr "run");
                  ("daily_logs",
                   JList [JDict [("date", JStr "2024-03-06");
                                 ("progress", JNum 6)]])]] [])
       NoFile 0%nat sample_day).
Proof.
  apply (log_progress_without_target
           (mkTracker
              (mkStore [JDict [("name", JStr "run"); ("daily_logs", JList [])]]
                       [])
              NoFile 0%nat sample_day)
           "run" 6 0 [("name", JStr "run"); ("daily_logs", JList [])] [] 0).
  - repeat split. constructor.
  - reflexivity.
  - reflexivity.
  - reflexivity.
Defined.

(* ===================================================================== *)
(** ** Loading twice *)
(* ===================================================================== *)

Lemma dict_setdefault_present k x d v :
  dict_get k d = Some v -> dict_setdefault k x d = d.
Proof. unfold dict_setdefault. by intros ->. Qed.

Lemma dict_set_same k v d : dict_get k d = Some v -> dict_set k v d = d.
Proof.
  induction d as [|[k' v'] d IH]; simpl; [done|].
  destruct (String.eqb k k'); [by intros [= ->]|].
  intros H. by rewrite IH.
Qed.

Lemma dict_get_setdefault_some k x d :
  exists v, dict_get k (dict_setdefault k x d) = Some v.
Proof.
  rewrite dict_get_setdefault, String.eqb_refl.
  destruct (dict_get k d); eauto.
Qed.

Lemma dict_get_setdefault_keeps k k' x d v :
  dict_get k d = Some v -> dict_get k (dict_setdefault k' x d) = Some v.
Proof. intros H. by rewrite dict_get_setdefault, H. Qed.

Lemma normalise_goal_again g g' :
  normalise_goal g = Ok g' -> normalise_goal g' = Ok g'.
Proof.
  destruct g as [| | | | |d]; try done. intros [= <-].
  set (d1 := dict_setdefault "unit" (JStr "units") d).
  set (d2 := dict_setdefault "missed_days" (JList []) d1).
  set (d3 := dict_setdefault "daily_logs" (JList []) d2).
  destruct (dict_get_setdefault_some "unit" (JStr "units") d) as [u Hu].
  destruct (dict_get_setdefault_some "missed_days" (JList []) d1) as [m Hm].
  destruct (dict_get_setdefault_some "daily_logs" (JList []) d2) as [l Hl].
  fold d1 in Hu. fold d2 in Hm. fold d3 in Hl.
  assert (Hu3 : dict_get "unit" d3 = Some u)
    by (by do 2 apply dict_get_setdefault_keeps).
  assert (Hm3 : dict_get "missed_days" d3 = Some m)
    by (by apply dict_get_setdefault_keeps).
  unfold normalise_goal, setdefault. cbn [rbind].
  rewrite (dict_setdefault_present _ _ _ _ Hu3).
  rewrite (dict_setdefault_present _ _ _ _ Hm3).
  by rewrite (dict_setdefault_present _ _ _ _ Hl).
Qed.

Lemma normalise_goals_again goals goals' :
  normalise_goals goals = Ok goals' -> normalise_goals goals' = Ok goals'.
Proof.
  revert goals'. induction goals as [|g goals IH]; intros goals'; simpl.
  - by intros [= <-].
  - destruct (normalise_goal g) as [g1|] eqn:Hg; [|done]. simpl.
    destruct (normalise_goals goals) as [rest|]; [|done]. simpl.
    intros [= <-]. simpl.
    by rewrite (normalise_goal_again g g1 Hg), (IH rest eq_refl).
Qed.

Lemma normalise_doc_only_dict doc doc' :
  normalise_doc doc = Ok doc' -> exists d, doc = JDict d.
Proof.
  destruct doc as [| | |s|l|d]; try done; [| |by eexists].
  - unfold normalise_doc, migrate_legacy. simpl.
    destruct (index 0 "goals" s); [|done].
    by destruct (index 0 "active_goals" s).
  - unfold normalise_doc, migrate_legacy. simpl.
    destruct (list_mem (JStr "goals") l); [|done].
    by destruct (list_mem (JStr "active_goals") l).
Qed.

Lemma normalise_doc_again (doc doc' : json) :
  normalise_doc doc = Ok doc' -> normalise_doc doc' = Ok doc'.
Proof.
  intros H.
  destruct (normalise_doc_only_dict doc doc' H) as [d ->].
  revert H. unfold normalise_doc at 1. rewrite migrate_legacy_dict.
  set (d1 := match dict_get "goals" d, dict_get "active_goals" d with
             | Some v, None => dict_set "active_goals" v (dict_del "goals" d)
             | _, _ => d
             end).
  cbn [rbind setdefault getitem].
  set (d2 := dict_setdefault "active_goals" (JList []) d1).
  set (d3 := dict_setdefault "completed_goals" (JList []) d2).
  destruct (dict_get_setdefault_some "active_goals" (JList []) d1)
    as [ags Ha].
  destruct (dict_get_setdefault_some "completed_goals" (JList []) d2)
    as [cgs Hc].
  fold d2 in Ha. fold d3 in Hc.
  assert (Ha3 : dict_get "active_goals" d3 = Some ags)
    by (by apply dict_get_setdefault_keeps).
  rewrite Ha3. cbn [rbind].
  destruct (py_iter ags) as [goals|] eqn:Hiter; [|done]. cbn [rbind].
  destruct (normalise_goals goals) as [goals'|] eqn:Hn; [|done]. cbn [rbind].
  intros Hres.
  assert (Hshape : exists r ags',
             doc' = JDict r /\
             dict_get "active_goals" r = Some ags' /\
             dict_get "completed_goals" r = Some cgs /\
             py_iter ags' = Ok goals' /\
             match ags' with
             | JList _ => dict_set "active_goals" (JList goals') r
             | _ => r
             end = r).
  { destruct ags as [| | |s|l|dd]; try done.
    - injection Hres as <-. exists d3, (JStr s). repeat split; try done.
      destruct goals as [|g goals]; [by injection Hn as <-|].
      simpl in Hiter. destruct s; [done|]. simpl in Hiter.
      injection Hiter as <- _. done.
    - injection Hres as <-.
      exists (dict_set "active_goals" (JList goals') d3), (JList goals').
      repeat split.
      + apply dict_get_set_eq.
      + by rewrite dict_get_set_ne.
      + apply dict_set_same, dict_get_set_eq.
    - injection Hres as <-. exists d3, (JDict dd). repeat split; try done.
      destruct goals as [|g goals]; [by injection Hn as <-|].
      simpl in Hiter. destruct dd as [|[k v] dd]; [done|]. simpl in Hiter.
      injection Hiter as <- _. done. }
  destruct Hshape as (r & ags' & -> & Har & Hcr & Hiter' & Hfix).
  unfold normalise_doc. rewrite migrate_legacy_dict, Har.
  assert (Hm : match dict_get "goals" r with
               | Some _ => r | None => r end = r)
    by (by destruct (dict_get "goals" r)).
  rewrite Hm. cbn [rbind setdefault getitem].
  rewrite (dict_setdefault_present _ _ _ _ Har).
  rewrite (dict_setdefault_present _ _ _ _ Hcr).
  rewrite Har. cbn [rbind]. rewrite Hiter'. cbn [rbind].
  rewrite (normalise_goals_again goals goals' Hn). cbn [rbind].
  destruct ags'; try done. cbn [setitem]. by rewrite Hfix.
Qed.


(** X15. Loading is idempotent: a document [load_data] accepted and
    normalised is a fixed point, so loading it again raises nothing and
    changes nothing. *)
Theorem load_data_idempotent (doc doc' : json) :
  load_file (Doc doc) = Ok doc' -> load_file (Doc doc') = Ok doc'.
Proof. apply normalise_doc_again. Qed.

Lemma load_data_idempotent_witness :
  load_file
    (Doc (JDict
            [("active_goals",
              JList [JDict [("name", JStr "run"); ("unit", JStr "units");
                            ("missed_days", JList []);
                            ("daily_logs", JList [])]]);
             ("completed_goals", JList [])]))
  = Ok (JDict
          [("active_goals",
            JList [JDict [("name", JStr "run"); ("unit", JStr "units");
                          ("missed_days", JList []);
                          ("daily_logs", JList [])]]);
           ("completed_goals", JList [])]).
Proof.
  apply (load_data_idempotent
           (JDict [("goals", JList [JDict [("name", JStr "run")]])])).
  reflexivity.
Defined.

Lemma normalise_goals_returns goals :
  (exists goals', normalise_goals goals = Ok goals') <->
  forallb is_dictb goals = true.
Proof.
  induction goals as [|g goals IH]; simpl.
  - split; [done|by eexists].
  - destruct g as [| | | | |d]; simpl; try (split; [by intros [? ?]|done]).
    rewrite <- IH. split.
    + intros [goals' H]. destruct (normalise_goals goals); [by eexists|done].
    + intros [goals' ->]. by eexists.
Qed.

(** The loop of lines 25-28 ends without an error exactly on loadable
    active goals. *)
Lemma iterated_goals_returns v :
  (exists goals goals',
     py_iter v = Ok goals /\ normalise_goals goals = Ok goals') <->
  loadable v = true.
Proof.
  destruct v as [| | |s|l|d]; simpl;
    try (split; [by intros (? & ? & ? & ?)|done]).
  - destruct s as [|c s]; simpl.
    + split; [done|by eexists _, _].
    + split; [by intros (? & ? & [= <-] & ?)|done].
  - rewrite <- normalise_goals_returns. split.
    + intros (? & goals' & [= <-] & H). by eexists.
    + intros [goals' H]. by eexists _, _.
  - destruct d as [|[k v] d]; simpl.
    + split; [done|by eexists _, _].
    + split; [by intros (? & ? & [= <-] & ?)|done].
Qed.

(** On a record, lines 19-23 cannot fail and leave under [active_goals]
    the incoming goals; what is left to fail is the loop. *)
Lemma normalise_doc_returns d :
  (exists doc', normalise_doc (JDict d) = Ok doc') <->
  exists goals goals',
    py_iter (incoming_goals d) = Ok goals /\
    normalise_goals goals = Ok goals'.
Proof.
  unfold normalise_doc. rewrite migrate_legacy_dict.
  cbn [rbind setdefault getitem].
  set (d1 := match dict_get "goals" d, dict_get "active_goals" d with
             | Some v, None => dict_set "active_goals" v (dict_del "goals" d)
             | _, _ => d
             end).
  set (d3 := dict_setdefault "completed_goals" (JList [])
               (dict_setdefault "active_goals" (JList []) d1)).
  assert (Hact : dict_get "active_goals" d3 = Some (incoming_goals d)).
  { subst d3 d1. rewrite !dict_get_setdefault. unfold incoming_goals.
    destruct (dict_get "active_goals" d) as [v|] eqn:Ea.
    - destruct (dict_get "goals" d); by rewrite Ea.
    - destruct (dict_get "goals" d) as [v|] eqn:Eg.
      + by rewrite dict_get_set_eq.
      + by rewrite Ea. }
  rewrite Hact. cbn [rbind].
  destruct (py_iter (incoming_goals d)) as [goals|] eqn:Hit; cbn [rbind];
    [|split; [by intros [? ?]|by intros (? & ? & ? & ?)]].
  destruct (normalise_goals goals) as [goals'|] eqn:Hn; cbn [rbind];
    [|split; [by intros [? ?]|by intros (? & ? & [= <-] & ?); congruence]].
  split; [by eexists _, _|]. intros _.
  destruct (incoming_goals d); by eexists.
Qed.

(** X21. Which documents load: [load_data] returns on the value
    [json.load] read exactly when it is a record whose active goals
    ([active_goals], else the legacy [goals], else none) are a list of
    records, an empty dictionary or an empty string; on every other value
    it raises. *)
Theorem load_data_returns_iff (doc : json) :
  (exists doc', load_file (Doc doc) = Ok doc') <->
  exists d, doc = JDict d /\ loadable (incoming_goals d) = true.
Proof.
  split.
  - intros [doc' H]. simpl in H.
    destruct (normalise_doc_only_dict doc doc' H) as [d ->].
    exists d. split; [done|].
    apply iterated_goals_returns, normalise_doc_returns. by eexists.
  - intros (d & -> & H). simpl.
    by apply normalise_doc_returns, iterated_goals_returns.
Qed.

Lemma load_data_returns_iff_witness :
  (exists doc', load_file (Doc (JDict [("active_goals", JDict [])])) = Ok doc')
  /\
  (exists d, JDict [("goals", JList [JDict [("name", JStr "run")]])] = JDict d /\
             loadable (incoming_goals d) = true).
Proof.
  split.
  - apply (proj2 (load_data_returns_iff (JDict [("active_goals", JDict [])]))).
    eexists. split; reflexivity.
  - apply (proj1 (load_data_returns_iff
                    (JDict [("goals", JList [JDict [("name", JStr "run")]])]))).
    by eexists.
Defined.

(* ===================================================================== *)
(** ** One goal's progress and the other goals *)
(* ===================================================================== *)

Lemma same_hit_refl r : same_hit r r.
Proof. by destruct r as [[[i g]|]|]. Qed.

Lemma same_hit_shift r1 r2 :
  same_hit r1 r2 ->
  same_hit (do r <- r1;
            Ok (match r with
                | Some (i, g') => Some (S i, g')
                | None => None
                end))%res
           (do r <- r2;
            Ok (match r with
                | Some (i, g') => Some (S i, g')
                | None => None
                end))%res.
Proof. by destruct r1 as [[[i g]|]|], r2 as [[[j g']|]|]. Qed.

Lemma find_goal_insert_other n1 n2 goals i g g' :
  n1 <> n2 -> goals !! i = Some g -> named n1 g -> named n1 g' ->
  find_goal n2 (<[i := g']> goals) = find_goal n2 goals.
Proof.
  intros Hne. revert i. induction goals as [|g0 goals IH]; intros i; [done|].
  destruct i as [|i].
  - intros [= ->] Hg Hg'. unfold named in Hg, Hg'.
    change (<[0%nat := g']> (g :: goals)) with (g' :: goals).
    cbn [find_goal]. rewrite Hg, Hg'. cbn [rbind py_eq].
    by assert (String.eqb n1 n2 = false) as -> by (by apply String.eqb_neq).
  - intros Hi Hg Hg'.
    change (<[S i := g']> (g0 :: goals)) with (g0 :: <[i := g']> goals).
    cbn [find_goal]. by rewrite (IH i Hi Hg Hg').
Qed.

Lemma find_goal_delete_other n1 n2 goals i g :
  n1 <> n2 -> goals !! i = Some g -> named n1 g ->
  same_hit (find_goal n2 (delete i goals)) (find_goal n2 goals).
Proof.
  intros Hne. revert i. induction goals as [|g0 goals IH]; intros i; [done|].
  destruct i as [|i].
  - intros [= ->] Hg. unfold named in Hg.
    change (delete 0%nat (g :: goals)) with goals.
    cbn [find_goal]. rewrite Hg. cbn [rbind py_eq].
    assert (String.eqb n1 n2 = false) as -> by (by apply String.eqb_neq).
    destruct (find_goal n2 goals) as [[[j g']|]|]; done.
  - intros Hi Hg.
    change (delete (S i) (g0 :: goals)) with (g0 :: delete i goals).
    cbn [find_goal].
    destruct (getitem g0 "name") as [v|]; cbn [rbind]; [|done].
    destruct (py_eq v (JStr n2)); [done|].
    apply same_hit_shift. by apply (IH i).
Qed.

Lemma append_to_named n goal key entry goal' :
  key <> "name" -> append_to goal key entry = Ok goal' ->
  named n goal -> named n goal'.
Proof.
  unfold append_to. intros Hk H Hn.
  destruct (getitem goal key) as [l|]; [|done]. simpl in H.
  destruct (py_append l entry) as [l'|]; [|done]. simpl in H.
  destruct goal as [| | | | |d]; try done. injection H as <-.
  by apply named_dict_set.
Qed.

(** What [log_progress] can do to the active goals: nothing, or put a
    goal of the same name in the place of the first goal of the name, or
    take that goal out. *)
Lemma log_progress_active (t : tracker) (n : string) (a : float) :
  let t' := after (log_progress n a) t in
  clock t' = clock t /\
  (active_goals (data t') = active_goals (data t) \/
   exists i g g',
     active_goals (data t) !! i = Some g /\ named n g /\ named n g' /\
     (active_goals (data t') = <[i := g']> (active_goals (data t)) \/
      active_goals (data t') = delete i (active_goals (data t)))).
Proof.
  unfold after, log_progress.
  cbv [mbind today_str gets lift set_goal set_active save_data mret].
  destruct (find_goal n (active_goals (data t))) as [[[i g]|]|] eqn:Hfind;
    [|by split; [|left]..].
  pose proof (find_goal_named _ _ _ _ Hfind) as Hfirst.
  destruct Hfirst as (Hi & Hg & Hno).
  destruct (append_to g "daily_logs" _) as [g'|] eqn:Happ;
    [|by split; [|left]].
  assert (Hg' : named n g')
    by (by apply (append_to_named n g "daily_logs" _ g' ltac:(done) Happ)).
  cbn [data active_goals completed_goals file writes clock].
  assert (Hins : forall t',
            clock t' = clock t ->
            active_goals (data t') = <[i := g']> (active_goals (data t)) ->
            clock t' = clock t /\
            (active_goals (data t') = active_goals (data t) \/
             exists i g g',
               active_goals (data t) !! i = Some g /\ named n g /\
               named n g' /\
               (active_goals (data t')
                  = <[i := g']> (active_goals (data t)) \/
                active_goals (data t') = delete i (active_goals (data t))))).
  { intros t' Hc Ha. split; [done|]. right. exists i, g, g'. auto. }
  destruct (total_progress g') as [total|]; [|by apply Hins].
  destruct (getitem g' "total_target") as [target|]; [|by apply Hins].
  destruct (py_ge total target) as [[]|]; [| |by apply Hins].
  - unfold complete_goal.
    cbv [mbind today_str gets lift set_goal set_active set_completed
         save_data mret].
    cbn [data active_goals completed_goals file writes clock].
    destruct g' as [| | | | |d']; try done. cbn [setitem].
    rewrite list_insert_insert_eq.
    rewrite (py_remove_first n _ i g);
      [|done|by apply named_dict_set].
    cbn [snd data active_goals clock]. split; [done|].
    right. exists i, g, (JDict d'). auto.
  - by apply Hins.
Qed.

(** X16. Logging progress on one name never changes what
    [get_weekly_progress] returns, or raises, for another name: this
    holds on any tracker, whether the call completed a goal, returned
    [False] or raised. *)
Theorem log_progress_keeps_other_weekly (t : tracker) (n1 n2 : string)
    (a : float) :
  n1 <> n2 ->
  fst (get_weekly_progress n2 (after (log_progress n1 a) t))
    = fst (get_weekly_progress n2 t).
Proof.
  intros Hne.
  destruct (log_progress_active t n1 a) as [Hc Ha].
  set (t' := after (log_progress n1 a) t) in *.
  assert (Hhit : same_hit (find_goal n2 (active_goals (data t')))
                          (find_goal n2 (active_goals (data t)))).
  { destruct Ha as [->|(i & g & g' & Hi & Hg & Hg' & [->| ->])].
    - apply same_hit_refl.
    - rewrite (find_goal_insert_other n1 n2 _ i g g' Hne Hi Hg Hg').
      apply same_hit_refl.
    - by apply (find_goal_delete_other n1 n2 _ i g). }
  unfold get_weekly_progress, mbind, gets, lift, mret. rewrite Hc.
  destruct (find_goal n2 (active_goals (data t'))) as [[[i g]|]|],
           (find_goal n2 (active_goals (data t))) as [[[j g']|]|];
    simpl in Hhit; try done; by subst.
Qed.

Lemma log_progress_keeps_other_weekly_witness :
  fst (get_weekly_progress "swim" (after (log_progress "run" 6) sample_tracker))
    = fst (get_weekly_progress "swim" sample_tracker).
Proof.
  apply (log_progress_keeps_other_weekly sample_tracker "run" "swim" 6).
  discriminate.
Defined.

(** X17. Save and load round trip on every store that came from a
    file: a tracker that [GoalTracker] built, once saved, loads back as
    the same two collections. *)
Theorem loaded_store_round_trip (f : file_state) (today : date)
    (t : tracker) :
  GoalTracker f today = Some t ->
  GoalTracker (file (after save_data t)) today
    = Some (mkTracker (data t) (file (after save_data t)) 0%nat today).
Proof.
  unfold GoalTracker at 1.
  destruct (load_file f) as [doc|] eqn:Hload; [|done].
  destruct (store_of_doc doc) as [st|] eqn:Hst; [|done]. intros [= <-].
  assert (Hn : normalise_goals (active_goals st) = Ok (active_goals st)).
  { destruct f as [| |e0|doc0].
    - injection Hload as <-. by injection Hst as <-.
    - injection Hload as <-. by injection Hst as <-.
    - discriminate Hload.
    - simpl in Hload. apply normalise_doc_again in Hload.
      destruct doc as [| | | | |r]; try done. simpl in Hst.
      destruct (dict_get "active_goals" r) as [[| | | |a|]|] eqn:Ha; try done.
      destruct (dict_get "completed_goals" r) as [[| | | |c|]|] eqn:Hc;
        try done.
      injection Hst as <-. revert Hload.
      unfold normalise_doc. rewrite migrate_legacy_dict, Ha.
      assert (Hm : match dict_get "goals" r with
                   | Some _ => r | None => r end = r)
        by (by destruct (dict_get "goals" r)).
      rewrite Hm. cbn [rbind setdefault getitem].
      rewrite (dict_setdefault_present _ _ _ _ Ha).
      rewrite (dict_setdefault_present _ _ _ _ Hc).
      rewrite Ha. cbn [rbind py_iter active_goals].
      destruct (normalise_goals a) as [a'|]; [|done]. cbn [rbind setitem].
      intros [= Hr].
      assert (Hget : dict_get "active_goals"
                       (dict_set "active_goals" (JList a') r)
                     = Some (JList a')) by apply dict_get_set_eq.
      rewrite Hr, Ha in Hget. by injection Hget as ->. }
  unfold GoalTracker, after, save_data. cbn [snd file data].
  unfold load_file, doc_of_store, normalise_doc.
  cbn [migrate_legacy py_contains dict_mem dict_get String.eqb Ascii.eqb
       Bool.eqb rbind setdefault dict_setdefault getitem py_iter].
  rewrite Hn.
  cbn [rbind setitem dict_set String.eqb Ascii.eqb Bool.eqb store_of_doc
       dict_get].
  by destruct st.
Qed.

Lemma loaded_store_round_trip_witness :
  let f := Doc (JDict [("goals", JList [JDict [("name", JStr "run")]])]) in
  let st := mkStore [JDict [("name", JStr "run"); ("unit", JStr "units");
                            ("missed_days", JList []);
                            ("daily_logs", JList [])]] [] in
  GoalTracker (file (after save_data (mkTracker st f 0%nat sample_day)))
              sample_day
    = Some (mkTracker st
              (file (after save_data (mkTracker st f 0%nat sample_day)))
              0%nat sample_day).
Proof.
  apply (loaded_store_round_trip
           (Doc (JDict [("goals", JList [JDict [("name", JStr "run")]])]))
           sample_day
           (mkTracker
              (mkStore [JDict [("name", JStr "run"); ("unit", JStr "units");
                               ("missed_days", JList []);
                               ("daily_logs", JList [])]] [])
              (Doc (JDict [("goals", JList [JDict [("name", JStr "run")]])]))
              0%nat sample_day)).
  reflexivity.
Defined.

(** X19. What was logged under another week number does not count: on
    a calendar day, when [log_progress] puts an entry on the first goal
    of the name without completing it, [get_weekly_progress] on a later
    day of another week number returns what it would have returned had
    nothing been logged. *)
Theorem logged_in_another_week_does_not_count (t : tracker) (n : string)
    (a : float) (later : date) (i : nat) (d : list (string * json))
    (logs : list json) (s : float) (tv : json) (target : float) :
  valid_date (clock t) ->
  iso_week (clock t) <> iso_week later ->
  first_named n (active_goals (data t)) i (JDict d) ->
  dict_get "daily_logs" d = Some (JList logs) ->
  sum_progress_from 0%float logs = Ok s ->
  dict_get "total_target" d = Some tv ->
  as_number tv = Ok target ->
  (target <=? s + a)%float = false ->
  fst (get_weekly_progress n (on_day later (after (log_progress n a) t)))
    = fst (get_weekly_progress n (on_day later t)).
Proof.
  intros Hd Hweek Hfirst Hlogs Hsum Htv Htarget Hreach.
  rewrite (weekly_progress_found (on_day later t) n i d logs Hfirst Hlogs).
  destruct (log_progress_run t n a i d logs s tv target
              Hfirst Hlogs Hsum Htv Htarget) as [_ Hrun].
  unfold after. rewrite Hrun. rewrite Hreach. cbn [snd].
  unfold store_after_log.
  erewrite weekly_progress_found; cycle 1.
  - cbn [on_day data active_goals].
    apply (first_named_insert n _ i (JDict d)); [exact Hfirst|].
    apply named_dict_set; [done|]. apply Hfirst.
  - unfold with_log. apply dict_get_set_eq.
  - cbn [fst on_day clock]. rewrite weekly_sum_from_app.
    destruct (weekly_sum_from (iso_week later) 0 logs) as [w|]; [|done].
    cbn [weekly_sum_from getitem dict_get String.eqb Ascii.eqb Bool.eqb
         rbind].
    rewrite (strptime_strftime _ Hd). cbn [rbind].
    by assert ((iso_week (clock t) =? iso_week later) = false) as ->
      by (by apply Z.eqb_neq).
Qed.

Lemma logged_in_another_week_does_not_count_witness :
  fst (get_weekly_progress "run"
         (on_day (mkDate 2024 3 11)
            (after (log_progress "run" 6) sample_tracker)))
    = fst (get_weekly_progress "run" (on_day (mkDate 2024 3 11) sample_tracker)).
Proof.
  apply (logged_in_another_week_does_not_count sample_tracker "run" 6
           (mkDate 2024 3 11) 0
           [("name", JStr "run"); ("total_target", JNum 10);
            ("weekly_target", JNum 5); ("unit", JStr "km");
            ("daily_logs", JList []); ("missed_days", JList [])]
           [] 0 (JNum 10) 10).
  - valid_date_tac.
  - discriminate.
  - repeat split. constructor.
  - reflexivity.
  - reflexivity.
  - reflexivity.
  - reflexivity.
  - reflexivity.
Defined.

(** X20. A missed day is no progress: on any tracker, whatever
    [log_missed_day] did, [get_weekly_progress] returns, or raises, for
    every name what it would have without the call. *)
Theorem log_missed_day_keeps_weekly (t : tracker) (n r n2 : string) :
  fst (get_weekly_progress n2 (after (log_missed_day n r) t))
    = fst (get_weekly_progress n2 t).
Proof.
  unfold after, log_missed_day.
  cbv [mbind today_str gets lift set_goal set_active save_data mret].
  destruct (find_goal n (active_goals (data t))) as [[[i g]|]|] eqn:Hfind;
    [|done|done].
  destruct (append_to g "missed_days" _) as [g'|] eqn:Happ; [|done].
  cbn [snd]. pose proof (find_goal_named _ _ _ _ Hfind) as Hfirst.
  assert (Hg' : named n g')
    by (apply (append_to_named n g "missed_days" _ g' ltac:(done) Happ);
        apply Hfirst).
  unfold get_weekly_progress, mbind, gets, lift, mret.
  cbn [data active_goals clock].
  destruct (String.eqb_spec n n2) as [<-|Hne].
  - rewrite (find_goal_first _ _ _ _
               (first_named_insert n _ i g g' Hfirst Hg')), Hfind.
    cbn [fst]. unfold append_to in Happ.
    destruct (getitem g "missed_days") as [l|]; [|done]. cbn [rbind] in Happ.
    destruct (py_append l _) as [l'|]; [|done]. cbn [rbind] in Happ.
    destruct g as [| | | | |d]; try done. injection Happ as <-.
    cbn [getitem]. by rewrite dict_get_set_ne.
  - destruct Hfirst as (Hi & Hg & _).
    rewrite (find_goal_insert_other n n2 _ i g g' Hne Hi Hg Hg').
    by destruct (find_goal n2 (active_goals (data t))) as [[[j gj]|]|].
Qed.
